(** * The TTS gateway: request dispatch, streaming fallback and health

    A shallow embedding of the gateway service of the repository
    (src/gateway/main.py, health.py, config.py, models.py) and the
    properties of its dispatch-and-health core.

    Embedded from main.py: validate_model_endpoints, list_models,
    forward_request, generate_tts and generate_tts_stream; from health.py:
    increment_request_count, get_uptime, get_system_stats, check_model_health,
    get_models_status, health_check, quick_health_check, models_health_check,
    single_model_health_check and service_stats; from config.py: the
    validators of Settings; from models.py: the schemas and the text
    validator of TTSRequest.

    Conventions of the embedding.
    - A coroutine of the source is a function from the process state to an
      outcome (an exception or a value) and the next state: [Comp E A].
      `await` is sequencing; `try ... except` is [try_except].
    - The process state holds the module global [request_counter] of
      health.py, the list of HTTP calls issued so far, and the time spent
      awaiting their replies.
    - What the backends, the clock and the libraries answer is not part of
      the program: it is read from a [World], which may answer differently
      as the history of calls grows.
    - Python values that travel as JSON are [pyval]; a `dict` is an
      association list in insertion order with unique keys.
    - A `str` the program only passes along or concatenates is a [string];
      where the program looks at the characters of a text (the validator of
      TTSRequest) the text is the list of its code points, [pystr]. *)

From Stdlib Require Import ZArith List String Ascii Bool Lia DecimalString.
From Stdlib Require Import Floats.PrimFloat Floats.SpecFloat Floats.FloatOps Floats.FloatAxioms.
Import ListNotations.

Local Set Warnings "-register-all".
Local Open Scope list_scope.
Local Open Scope string_scope.

(** ** Python values and dictionaries *)

Definition dict (V : Type) : Type := list (string * V).

Inductive pyval : Type :=
| PyNone
| PyBool (b : bool)
| PyInt (n : Z)
| PyFloat (f : float)
| PyStr (s : string)
| PyList (l : list pyval)
| PyDict (items : list (string * pyval)).

(** `d.get(k)`: the value stored under [k], if any; `k not in d` is the
    case [None]. *)
Fixpoint dict_get {V : Type} (d : dict V) (k : string) : option V :=
  match d with
  | [] => None
  | (k', v) :: d' => if String.eqb k' k then Some v else dict_get d' k
  end.

(** `d[k] = v`: overwrite in place, or append a new key at the end. *)
Fixpoint dict_set {V : Type} (d : dict V) (k : string) (v : V) : dict V :=
  match d with
  | [] => [(k, v)]
  | (k', v') :: d' =>
      if String.eqb k' k then (k', v) :: d' else (k', v') :: dict_set d' k v
  end.

Definition dict_keys {V : Type} (d : dict V) : list string := map fst d.
Definition dict_values {V : Type} (d : dict V) : list V := map snd d.

(** `any(xs)` and `sum(xs)` over booleans. *)
Definition any (xs : list bool) : bool := existsb (fun b => b) xs.
Definition sum_bools (xs : list bool) : Z :=
  fold_left (fun acc (b : bool) => if b then (acc + 1)%Z else acc) xs 0%Z.

(** `str(n)` for an int. *)
Definition str_int (n : Z) : string := NilZero.string_of_int (Z.to_int n).

(** `s.lower()` on ASCII text (the environment variable names below). *)
Definition lower_ascii (c : ascii) : ascii :=
  let n := nat_of_ascii c in
  if andb (Nat.leb 65 n) (Nat.leb n 90) then ascii_of_nat (n + 32) else c.

Fixpoint lower (s : string) : string :=
  match s with
  | EmptyString => EmptyString
  | String c s' => String (lower_ascii c) (lower s')
  end.

(** Truthiness of an `Optional[str]`: `None` and the empty string are false. *)
Definition truthy (o : option string) : bool :=
  match o with
  | Some s => negb (String.eqb s EmptyString)
  | None => false
  end.

(** ** config.py: Settings *)

Record Settings : Type := {
  port : Z;
  debug : bool;
  log_level : string;
  kokkoro_endpoint : option string;
  chatterbox_endpoint : option string;
  runpod_api_key : option string;
  runpod_endpoint_id : option string;
  default_timeout : float;
  max_retries : Z;
  api_key : option string;
  allowed_origins : list string
}.

(** `getattr(settings, name, None)` as the gateway uses it: [name] is always
    `<model>_endpoint` for a registered model, so the value is one of the two
    `Optional[str]` endpoint fields; the last branch is getattr's default. *)
Definition getattr_endpoint (settings : Settings) (name : string) : option string :=
  if String.eqb name "kokkoro_endpoint" then kokkoro_endpoint settings
  else if String.eqb name "chatterbox_endpoint" then chatterbox_endpoint settings
  else None.

(** ** models.py: request and response schemas *)

Inductive AudioFormat : Type := WAV | MP3 | OGG | FLAC.

Definition AudioFormat_value (f : AudioFormat) : string :=
  match f with WAV => "wav" | MP3 => "mp3" | OGG => "ogg" | FLAC => "flac" end.

Record TTSRequest : Type := {
  req_text : string;
  req_voice_id : option string;
  req_language : option string;
  req_format : AudioFormat;
  req_sample_rate : option Z;
  req_speed : option float;
  req_pitch : option float;
  req_volume : option float;
  req_model_params : option (list (string * pyval));
  req_normalize : bool;
  req_remove_silence : bool
}.

Definition py_opt {A : Type} (f : A -> pyval) (o : option A) : pyval :=
  match o with Some a => f a | None => PyNone end.

(** `request.dict()`: the fields in declaration order. *)
Definition TTSRequest_dict (r : TTSRequest) : dict pyval :=
  [ ("text", PyStr (req_text r));
    ("voice_id", py_opt PyStr (req_voice_id r));
    ("language", py_opt PyStr (req_language r));
    ("format", PyStr (AudioFormat_value (req_format r)));
    ("sample_rate", py_opt PyInt (req_sample_rate r));
    ("speed", py_opt PyFloat (req_speed r));
    ("pitch", py_opt PyFloat (req_pitch r));
    ("volume", py_opt PyFloat (req_volume r));
    ("model_params", py_opt PyDict (req_model_params r));
    ("normalize", PyBool (req_normalize r));
    ("remove_silence", PyBool (req_remove_silence r)) ].

Record TTSResponse : Type := {
  success : bool;
  audio_data : option string;
  audio_format : AudioFormat;
  duration : option float;
  sample_rate : Z;
  model_used : string;
  voice_used : option string;
  language : option string;
  processing_time : option float;
  text_length : Z;
  error : option string;
  warnings : option (list string)
}.

Record HealthResponse : Type := {
  status : string;
  timestamp : string;
  version : string;
  uptime : float;
  request_count : option Z;
  models : dict bool;
  memory_usage : option float;
  cpu_usage : option float
}.

(** ** HTTP responses and exceptions *)

(** A response obtained through `client.stream`: its body has not been read,
    so `.text` may raise ([inl] holds the `str` of what it raises). *)
Record StreamResponse : Type := {
  stream_status_code : Z;
  stream_text : string + string;
  stream_chunks : list (list Byte.byte);
  stream_error_message : string
}.

(** Exceptions raised by library calls (httpx, json, pydantic, psutil), by
    class as the handlers of the gateway tell them apart. httpx's
    TimeoutException is a RequestError; [RequestError] here stands for the
    request errors that are not timeouts. Every constructor carries `str(e)`. *)
Inductive LibExc : Type :=
| TimeoutException (message : string)
| RequestError (message : string)
| HTTPStatusError (message : string) (response : StreamResponse)
| OtherException (message : string).

Definition str_exc (e : LibExc) : string :=
  match e with
  | TimeoutException m | RequestError m | HTTPStatusError m _ | OtherException m => m
  end.

(** A response whose body has been read; `.json()` may raise. *)
Record Response : Type := {
  status_code : Z;
  text : string;
  json : LibExc + pyval
}.

(** What a gateway coroutine can raise: fastapi's HTTPException, or a library
    exception that nothing caught. *)
Inductive exn : Type :=
| HTTPException (code : Z) (detail : string)
| Lib (e : LibExc).

Definition HTTP_400_BAD_REQUEST : Z := 400.
Definition HTTP_404_NOT_FOUND : Z := 404.
Definition HTTP_422_UNPROCESSABLE_ENTITY : Z := 422.
Definition HTTP_500_INTERNAL_SERVER_ERROR : Z := 500.
Definition HTTP_503_SERVICE_UNAVAILABLE : Z := 503.
Definition HTTP_504_GATEWAY_TIMEOUT : Z := 504.

(** ** Process state, the world, and coroutines *)

Inductive Call : Type :=
| POST (url : string) (body : pyval) (timeout : float)
| STREAM (url : string) (body : pyval) (timeout : float)
| GET (url : string) (timeout : float).

Record State : Type := {
  request_counter : Z;
  calls : list Call;
  awaited : nat
}.

Record World : Type := {
  start_time : float;
  time_time : list Call -> float;
  utc_isoformat : list Call -> string;
  psutil_percent : list Call -> LibExc + (float * float);
  client_post : list Call -> string -> pyval -> float -> LibExc + Response;
  client_stream : list Call -> string -> pyval -> float -> LibExc + StreamResponse;
  client_get : list Call -> string -> float -> LibExc + Response;
  latency : list Call -> Call -> nat
}.

Definition Comp (E A : Type) : Type := State -> (E + A) * State.
Definition M (A : Type) : Type := Comp exn A.

Definition ret {E A : Type} (a : A) : Comp E A := fun s => (inr a, s).
Definition raise {E A : Type} (e : E) : Comp E A := fun s => (inl e, s).

Definition bind {E A B : Type} (m : Comp E A) (k : A -> Comp E B) : Comp E B :=
  fun s =>
    match m s with
    | (inr a, s') => k a s'
    | (inl e, s') => (inl e, s')
    end.

(** `try: body / except ... as e: handler e`; a handler re-raises what it
    does not catch. *)
Definition try_except {E E' A : Type}
    (body : Comp E A) (handler : E -> Comp E' A) : Comp E' A :=
  fun s =>
    match body s with
    | (inr a, s') => (inr a, s')
    | (inl e, s') => handler e s'
    end.

(** The value or exception of a library call that does no I/O. *)
Definition lib {A : Type} (r : LibExc + A) : M A :=
  fun s => match r with inr a => (inr a, s) | inl e => (inl (Lib e), s) end.

Declare Scope comp_scope.
Delimit Scope comp_scope with comp.
Notation "x <- c1 ;; c2" := (bind c1 (fun x => c2))
  (at level 100, c1 at next level, right associativity) : comp_scope.
Notation "c1 ;; c2" := (bind c1 (fun _ => c2))
  (at level 100, right associativity) : comp_scope.
Local Open Scope comp_scope.

(** Issuing a call appends it to the history and waits for its reply. *)
Definition issue (w : World) (c : Call) (s : State) : State :=
  {| request_counter := request_counter s;
     calls := calls s ++ [c];
     awaited := awaited s + latency w (calls s) c |}.

Definition await_post (w : World) (url : string) (body : pyval) (timeout : float)
  : Comp LibExc Response :=
  fun s => (client_post w (calls s) url body timeout, issue w (POST url body timeout) s).

Definition await_stream (w : World) (url : string) (body : pyval) (timeout : float)
  : Comp LibExc StreamResponse :=
  fun s => (client_stream w (calls s) url body timeout, issue w (STREAM url body timeout) s).

Definition await_get (w : World) (url : string) (timeout : float)
  : Comp LibExc Response :=
  fun s => (client_get w (calls s) url timeout, issue w (GET url timeout) s).

(** ** main.py: the dispatcher *)

Definition MODEL_ENDPOINTS : dict string :=
  [ ("kokkoro", "KOKKORO_ENDPOINT"); ("chatterbox", "CHATTERBOX_ENDPOINT") ].

(** `if not endpoint` fails exactly when this is [None]. *)
Definition configured_endpoint (endpoint : option string) : option string :=
  if truthy endpoint then endpoint else None.

(** `f"{xs}"` for a list of plain strings (no quotes or escapes inside). *)
Definition repr_str_list (xs : list string) : string :=
  "[" ++ String.concat ", " (map (fun x => "'" ++ x ++ "'") xs) ++ "]".

(** The class name Python prints for a value in an AttributeError. *)
Definition type_name (v : pyval) : string :=
  match v with
  | PyNone => "NoneType"
  | PyBool _ => "bool"
  | PyInt _ => "int"
  | PyFloat _ => "float"
  | PyStr _ => "str"
  | PyList _ => "list"
  | PyDict _ => "dict"
  end.

(** `v.get(k, default)`: only a dict has `.get`. *)
Definition py_get (v : pyval) (k : string) (default : pyval) : LibExc + pyval :=
  match v with
  | PyDict items =>
      inr (match dict_get items k with Some x => x | None => default end)
  | _ => inl (OtherException ("'" ++ type_name v ++ "' object has no attribute 'get'"))
  end.

(** `request_data = request.dict(); request_data["model"] = model_name`. *)
Definition prepare_request_data (request : TTSRequest) (model_name : string) : pyval :=
  PyDict (dict_set (TTSRequest_dict request) "model" (PyStr model_name)).

Definition forward_timeout : float := 60%float.
Definition stream_timeout : float := 120%float.

(** `forward_request(endpoint, request_data, client, timeout)`. *)
Definition forward_request (w : World) (endpoint : string) (request_data : pyval)
    (timeout : float) : M Response :=
  try_except
    (await_post w (endpoint ++ "/generate") request_data timeout)
    (fun e =>
       match e with
       | TimeoutException _ =>
           raise (HTTPException HTTP_504_GATEWAY_TIMEOUT
                    ("Model endpoint timeout: " ++ endpoint))
       | RequestError _ =>
           raise (HTTPException HTTP_503_SERVICE_UNAVAILABLE
                    ("Cannot reach model endpoint: " ++ endpoint))
       | _ =>
           raise (HTTPException HTTP_500_INTERNAL_SERVER_ERROR
                    ("Internal server error: " ++ str_exc e))
       end).

(** starlette's `Response`: the rendered body, the media type and the
    headers. *)
Record StarletteResponse : Type := {
  content : list Byte.byte;
  media_type : string;
  headers : dict string
}.

(** What the handlers pass as `content`: nothing, bytes, or the async
    generator `generate()` over the chunks of a streamed reply. *)
Inductive ResponseContent : Type :=
| NoContent
| BytesContent (b : list Byte.byte)
| AsyncGenerator (chunks : list (list Byte.byte)).

(** `Response(content, media_type=..., headers=...)`. The constructor renders
    its content at once: `None` and bytes are taken as they are, anything else
    is sent `.encode(charset)`, which an async generator does not have, so the
    call raises AttributeError (streaming a generator is the work of
    `StreamingResponse`, which the gateway does not use). *)
Definition Response_init (c : ResponseContent) (media : string)
    (hdrs : dict string) : LibExc + StarletteResponse :=
  match c with
  | NoContent => inr {| content := []; media_type := media; headers := hdrs |}
  | BytesContent b => inr {| content := b; media_type := media; headers := hdrs |}
  | AsyncGenerator _ =>
      inl (OtherException "'async_generator' object has no attribute 'encode'")
  end.

Inductive StreamOutcome : Type :=
| Dispatched (r : TTSResponse)
| Streamed (r : StarletteResponse).

(** `response.raise_for_status()`: httpx raises HTTPStatusError unless the
    status is 2xx (older releases raise for 4xx and 5xx only; nothing below
    depends on the difference). *)
Definition raise_for_status (response : StreamResponse) : M unit :=
  if andb (200 <=? stream_status_code response)%Z (stream_status_code response <=? 299)%Z
  then ret tt
  else raise (Lib (HTTPStatusError (stream_error_message response) response)).

Section Dispatch.

(** The constructor call of TTSResponse on the parsed response data,
    passed as keyword arguments: pydantic either builds the model or raises
    (a ValidationError, or a TypeError when the data is no mapping). *)
Variable TTSResponse_init : pyval -> LibExc + TTSResponse.

(** `repr` of floats, lists and dicts, as an f-string prints them. *)
Variable py_repr : pyval -> string.

(** `f"{v}"`. *)
Definition py_str (v : pyval) : string :=
  match v with
  | PyStr s => s
  | PyNone => "None"
  | PyBool true => "True"
  | PyBool false => "False"
  | PyInt n => str_int n
  | _ => py_repr v
  end.

(** The `try` block of generate_tts. *)
Definition forward_and_classify (w : World) (endpoint : string)
    (request_data : pyval) : M TTSResponse :=
  response <- forward_request w endpoint request_data forward_timeout ;;
  if (status_code response =? 200)%Z then
    response_data <- lib (json response) ;;
    lib (TTSResponse_init response_data)
  else if (status_code response =? 422)%Z then
    body <- lib (json response) ;;
    error_detail <- lib (py_get body "detail" (PyStr "Validation error")) ;;
    raise (HTTPException HTTP_422_UNPROCESSABLE_ENTITY
             ("Model validation error: " ++ py_str error_detail))
  else
    let error_detail :=
      if String.eqb (text response) EmptyString then "HTTP " ++ str_int (status_code response)
      else text response in
    raise (HTTPException (status_code response)
             ("Model endpoint error: " ++ error_detail)).

(** `POST /tts/{model_name}`. *)
Definition generate_tts (w : World) (settings : Settings) (model_name : string)
    (request : TTSRequest) : M TTSResponse :=
  match dict_get MODEL_ENDPOINTS model_name with
  | None =>
      raise (HTTPException HTTP_400_BAD_REQUEST
               ("Unknown model: " ++ model_name ++ ". Available models: "
                ++ repr_str_list (dict_keys MODEL_ENDPOINTS)))
  | Some env_var =>
      match configured_endpoint (getattr_endpoint settings (lower env_var)) with
      | None =>
          raise (HTTPException HTTP_503_SERVICE_UNAVAILABLE
                   ("Model " ++ model_name ++ " is not configured. Please set "
                    ++ env_var ++ " environment variable."))
      | Some endpoint =>
          let request_data := prepare_request_data request model_name in
          try_except
            (forward_and_classify w endpoint request_data)
            (fun e =>
               match e with
               | HTTPException _ _ => raise e
               | Lib e' =>
                   raise (HTTPException HTTP_500_INTERNAL_SERVER_ERROR
                            ("Internal server error: " ++ str_exc e'))
               end)
      end
  end.

(** `POST /tts/{model_name}/stream`. *)
Definition generate_tts_stream (w : World) (settings : Settings)
    (model_name : string) (request : TTSRequest) : M StreamOutcome :=
  match dict_get MODEL_ENDPOINTS model_name with
  | None =>
      raise (HTTPException HTTP_400_BAD_REQUEST ("Unknown model: " ++ model_name))
  | Some env_var =>
      match configured_endpoint (getattr_endpoint settings (lower env_var)) with
      | None =>
          raise (HTTPException HTTP_503_SERVICE_UNAVAILABLE
                   ("Model " ++ model_name ++ " is not configured"))
      | Some endpoint =>
          let stream_endpoint := endpoint ++ "/generate/stream" in
          let request_data := prepare_request_data request model_name in
          try_except
            (response <- try_except
                           (await_stream w stream_endpoint request_data
                              stream_timeout)
                           (fun e => raise (Lib e)) ;;
             if (stream_status_code response =? 404)%Z then
               r <- generate_tts w settings model_name request ;;
               ret (Dispatched r)
             else
               raise_for_status response ;;
               r <- lib (Response_init (AsyncGenerator (stream_chunks response))
                           "audio/wav"
                           [ ("Content-Disposition",
                              "attachment; filename=tts_" ++ model_name ++ ".wav") ]) ;;
               ret (Streamed r))
            (fun e =>
               match e with
               | Lib (HTTPStatusError _ response) =>
                   if (stream_status_code response =? 404)%Z then
                     r <- generate_tts w settings model_name request ;;
                     ret (Dispatched r)
                   else
                     match stream_text response with
                     | inr body =>
                         raise (HTTPException (stream_status_code response)
                                  ("Model endpoint error: " ++ body))
                     | inl message => raise (Lib (OtherException message))
                     end
               | _ => raise e
               end)
      end
  end.

End Dispatch.

(** ** health.py: counters, the prober and the aggregator *)

(** `increment_request_count()`: `request_counter += 1`. *)
Definition increment_request_count : M unit :=
  fun s =>
    (inr tt,
     {| request_counter := request_counter s + 1;
        calls := calls s;
        awaited := awaited s |}).

Definition read_request_counter : M Z := fun s => (inr (request_counter s), s).

(** `get_uptime()`: `time.time() - start_time`. *)
Definition get_uptime (w : World) : M float :=
  fun s => (inr (PrimFloat.sub (time_time w (calls s)) (start_time w)), s).

(** `datetime.now(timezone.utc).isoformat()`. *)
Definition now_isoformat (w : World) : M string :=
  fun s => (inr (utc_isoformat w (calls s)), s).

Record SystemStats : Type := {
  stat_memory_usage : option float;
  stat_cpu_usage : option float
}.

Definition read_psutil (w : World) : Comp LibExc (float * float) :=
  fun s => (psutil_percent w (calls s), s).

(** `get_system_stats()`: the psutil readings (memory percent, cpu percent),
    or two `None` when psutil raises. *)
Definition get_system_stats (w : World) : M SystemStats :=
  try_except
    (readings <- read_psutil w ;;
     ret {| stat_memory_usage := Some (fst readings);
            stat_cpu_usage := Some (snd readings) |})
    (fun _ : LibExc => ret {| stat_memory_usage := None; stat_cpu_usage := None |}).

Definition probe_timeout : float := 5%float.

(** `check_model_health(endpoint, timeout)`. *)
Definition check_model_health (w : World) (endpoint : string) (timeout : float)
  : M bool :=
  try_except
    (response <- await_get w (endpoint ++ "/health") timeout ;;
     ret (status_code response =? 200)%Z)
    (fun _ : LibExc => ret false).

(** `get_models_status(settings)`. *)
Definition get_models_status (w : World) (settings : Settings) : M (dict bool) :=
  let models_status : dict bool := [] in
  models_status <-
    match configured_endpoint (kokkoro_endpoint settings) with
    | Some endpoint =>
        is_healthy <- check_model_health w endpoint probe_timeout ;;
        ret (dict_set models_status "kokkoro" is_healthy)
    | None => ret (dict_set models_status "kokkoro" false)
    end ;;
  models_status <-
    match configured_endpoint (chatterbox_endpoint settings) with
    | Some endpoint =>
        is_healthy <- check_model_health w endpoint probe_timeout ;;
        ret (dict_set models_status "chatterbox" is_healthy)
    | None => ret (dict_set models_status "chatterbox" false)
    end ;;
  ret models_status.

Definition opt_float_in (lo hi : float) (o : option float) : bool :=
  match o with
  | Some x => andb (PrimFloat.leb lo x) (PrimFloat.leb x hi)
  | None => true
  end.

(** The field constraints of HealthResponse (`ge=0`, `le=100`) on values that
    already have the declared types; pydantic raises a ValidationError when
    one fails (the text of its message is not reproduced). *)
Definition HealthResponse_init (h : HealthResponse) : M HealthResponse :=
  if andb (PrimFloat.leb 0 (uptime h))
       (andb (match request_count h with Some n => (0 <=? n)%Z | None => true end)
          (andb (opt_float_in 0 100 (memory_usage h))
                (opt_float_in 0 100 (cpu_usage h))))
  then ret h
  else raise (Lib (OtherException "validation error for HealthResponse")).

Definition overall_status (models_status : dict bool) : string :=
  let any_model_available := any (dict_values models_status) in
  if any_model_available then "healthy" else "degraded".

(** `GET /health/`. *)
Definition health_check (w : World) (settings : Settings) : M HealthResponse :=
  increment_request_count ;;
  system_stats <- get_system_stats w ;;
  models_status <- get_models_status w settings ;;
  now <- now_isoformat w ;;
  up <- get_uptime w ;;
  counter <- read_request_counter ;;
  HealthResponse_init
    {| status := overall_status models_status;
       timestamp := now;
       version := "1.0.0";
       uptime := up;
       request_count := Some counter;
       models := models_status;
       memory_usage := stat_memory_usage system_stats;
       cpu_usage := stat_cpu_usage system_stats |}.

Record JSONResponse : Type := {
  body : dict pyval;
  response_status : Z
}.

(** `GET /health/quick`. *)
Definition quick_health_check (w : World) : M JSONResponse :=
  increment_request_count ;;
  now <- now_isoformat w ;;
  ret {| body := [ ("status", PyStr "ok"); ("timestamp", PyStr now) ];
         response_status := 200 |}.

Record ModelDetail : Type := {
  healthy : bool;
  endpoint : option string;
  configured : bool
}.

Record ModelsHealth : Type := {
  detailed_models : dict ModelDetail;
  detailed_timestamp : string;
  total_healthy : Z;
  total_configured : Z
}.

(** The loop of models_health_check over `models_status.items()`. *)
Definition detail_models (settings : Settings) (models_status : dict bool)
  : dict ModelDetail :=
  fold_left
    (fun detailed_status (item : string * bool) =>
       let (model_name, is_healthy) := item in
       let endpoint := getattr_endpoint settings (model_name ++ "_endpoint") in
       dict_set detailed_status model_name
         {| healthy := is_healthy;
            endpoint := endpoint;
            configured := truthy endpoint |})
    models_status [].

(** `GET /health/models`. *)
Definition models_health_check (w : World) (settings : Settings) : M ModelsHealth :=
  models_status <- get_models_status w settings ;;
  let detailed_status := detail_models settings models_status in
  now <- now_isoformat w ;;
  ret {| detailed_models := detailed_status;
         detailed_timestamp := now;
         total_healthy := sum_bools (dict_values models_status);
         total_configured :=
           Z.of_nat (List.length (filter configured (dict_values detailed_status))) |}.

(** `GET /health/models/{model_name}`. *)
Definition single_model_health_check (w : World) (settings : Settings)
    (model_name : string) : M JSONResponse :=
  if negb (existsb (String.eqb model_name) ["kokkoro"; "chatterbox"]) then
    raise (HTTPException HTTP_404_NOT_FOUND ("Model '" ++ model_name ++ "' not found"))
  else
    match configured_endpoint (getattr_endpoint settings (model_name ++ "_endpoint")) with
    | None =>
        now <- now_isoformat w ;;
        ret {| body :=
                 [ ("model", PyStr model_name);
                   ("healthy", PyBool false);
                   ("configured", PyBool false);
                   ("error", PyStr ("Model " ++ model_name ++ " is not configured"));
                   ("timestamp", PyStr now) ];
               response_status := 503 |}
    | Some endpoint =>
        is_healthy <- check_model_health w endpoint probe_timeout ;;
        let status_code := if is_healthy then 200%Z else 503%Z in
        now <- now_isoformat w ;;
        ret {| body :=
                 [ ("model", PyStr model_name);
                   ("healthy", PyBool is_healthy);
                   ("configured", PyBool true);
                   ("endpoint", PyStr endpoint);
                   ("timestamp", PyStr now) ];
               response_status := status_code |}
    end.

(** ** A constructor for TTSResponse on well-typed payloads

    The schema of TTSResponse in models.py, applied to payloads whose values
    already have the declared JSON types: required and optional fields, the
    format enumeration and the numeric bounds. pydantic also converts some
    values of other types (a numeric string for an `int`, say) and words its
    errors at length; neither is reproduced here, so this is not pydantic's
    constructor: it agrees with it on the payloads it accepts and refuses
    some that pydantic would convert. The properties of the dispatcher below
    are stated for every constructor; this one only instantiates them on
    concrete payloads. *)

Definition AudioFormat_of_value (s : string) : option AudioFormat :=
  if String.eqb s "wav" then Some WAV
  else if String.eqb s "mp3" then Some MP3
  else if String.eqb s "ogg" then Some OGG
  else if String.eqb s "flac" then Some FLAC
  else None.

Definition as_bool (v : pyval) : option bool :=
  match v with PyBool b => Some b | _ => None end.
Definition as_int (v : pyval) : option Z :=
  match v with PyInt n => Some n | _ => None end.
Definition as_float (v : pyval) : option float :=
  match v with PyFloat f => Some f | _ => None end.
Definition as_str (v : pyval) : option string :=
  match v with PyStr s => Some s | _ => None end.

Fixpoint as_str_list (l : list pyval) : option (list string) :=
  match l with
  | [] => Some []
  | PyStr s :: l' => option_map (cons s) (as_str_list l')
  | _ :: _ => None
  end.

Definition as_list_of_str (v : pyval) : option (list string) :=
  match v with PyList l => as_str_list l | _ => None end.

(** A required field: present and of the declared type. *)
Definition required {A : Type} (conv : pyval -> option A) (items : dict pyval)
    (k : string) : option A :=
  match dict_get items k with
  | Some v => conv v
  | None => None
  end.

(** An `Optional[...] = None` field: absent or null gives `None`. *)
Definition optional {A : Type} (conv : pyval -> option A) (items : dict pyval)
    (k : string) : option (option A) :=
  match dict_get items k with
  | None | Some PyNone => Some None
  | Some v => option_map Some (conv v)
  end.

Definition ge0 (o : option float) : bool :=
  match o with Some x => PrimFloat.leb 0 x | None => true end.

Definition obind {A B : Type} (o : option A) (k : A -> option B) : option B :=
  match o with Some a => k a | None => None end.

Definition TTSResponse_fields (items : dict pyval) : option TTSResponse :=
  obind (required as_bool items "success") (fun success =>
  obind (optional as_str items "audio_data") (fun audio_data =>
  obind (obind (required as_str items "audio_format") AudioFormat_of_value) (fun audio_format =>
  obind (optional as_float items "duration") (fun duration =>
  obind (required as_int items "sample_rate") (fun sample_rate =>
  obind (required as_str items "model_used") (fun model_used =>
  obind (optional as_str items "voice_used") (fun voice_used =>
  obind (optional as_str items "language") (fun language =>
  obind (optional as_float items "processing_time") (fun processing_time =>
  obind (required as_int items "text_length") (fun text_length =>
  obind (optional as_str items "error") (fun error =>
  obind (optional as_list_of_str items "warnings") (fun warnings =>
  if andb (ge0 duration)
       (andb (andb (8000 <=? sample_rate)%Z (sample_rate <=? 48000)%Z)
          (andb (ge0 processing_time) (1 <=? text_length)%Z))
  then Some {| success := success;
               audio_data := audio_data;
               audio_format := audio_format;
               duration := duration;
               sample_rate := sample_rate;
               model_used := model_used;
               voice_used := voice_used;
               language := language;
               processing_time := processing_time;
               text_length := text_length;
               error := error;
               warnings := warnings |}
  else None)))))))))))).

Definition TTSResponse_typed (response_data : pyval) : LibExc + TTSResponse :=
  match response_data with
  | PyDict items =>
      match TTSResponse_fields items with
      | Some r => inr r
      | None => inl (OtherException "validation error for TTSResponse")
      end
  | _ => inl (OtherException "argument after ** must be a mapping")
  end.

(** A `repr` for the values the examples print: none of them is a float, a
    list or a dict. *)
Definition repr_unused (v : pyval) : string := "...".

(** ** Payloads that carry their fields as the schema declares them *)

(** An optional field of the response against the payload: a value is the
    payload's value under the key; `None` is a key that is absent or null. *)
Definition carries {A : Type} (inj : A -> pyval) (items : dict pyval) (k : string)
    (o : option A) : Prop :=
  match o with
  | Some a => dict_get items k = Some (inj a)
  | None => dict_get items k = None \/ dict_get items k = Some PyNone
  end.

(** Every field of [r] is what the payload holds under the field's name. *)
Definition payload_carried (items : dict pyval) (r : TTSResponse) : Prop :=
  dict_get items "success" = Some (PyBool (success r))
  /\ carries PyStr items "audio_data" (audio_data r)
  /\ dict_get items "audio_format" = Some (PyStr (AudioFormat_value (audio_format r)))
  /\ carries PyFloat items "duration" (duration r)
  /\ dict_get items "sample_rate" = Some (PyInt (sample_rate r))
  /\ dict_get items "model_used" = Some (PyStr (model_used r))
  /\ carries PyStr items "voice_used" (voice_used r)
  /\ carries PyStr items "language" (language r)
  /\ carries PyFloat items "processing_time" (processing_time r)
  /\ dict_get items "text_length" = Some (PyInt (text_length r))
  /\ carries PyStr items "error" (error r)
  /\ carries (fun l => PyList (map PyStr l)) items "warnings" (warnings r).

(** A constructor that takes a payload whose values already have the
    declared types and satisfy the declared bounds as it is: what pydantic
    does with such a payload, whatever it does with the others. *)
Definition accepts_typed_payloads
    (TTSResponse_init : pyval -> LibExc + TTSResponse) : Prop :=
  forall items r,
    TTSResponse_fields items = Some r -> TTSResponse_init (PyDict items) = inr r.

(** ** Concrete settings, requests and worlds *)

(** `Settings()` with nothing set in the environment. *)
Definition default_settings : Settings :=
  {| port := 8000;
     debug := false;
     log_level := "info";
     kokkoro_endpoint := None;
     chatterbox_endpoint := None;
     runpod_api_key := None;
     runpod_endpoint_id := None;
     default_timeout := 60%float;
     max_retries := 3;
     api_key := None;
     allowed_origins := ["*"] |}.

(** `get_development_settings()`. *)
Definition development_settings : Settings :=
  {| port := 8000;
     debug := true;
     log_level := "debug";
     kokkoro_endpoint := Some "http://kokkoro:8001";
     chatterbox_endpoint := Some "http://chatterbox:8002";
     runpod_api_key := None;
     runpod_endpoint_id := None;
     default_timeout := 60%float;
     max_retries := 3;
     api_key := None;
     allowed_origins := ["http://localhost:3000"; "http://127.0.0.1:3000"] |}.

(** Only chatterbox is configured. *)
Definition chatterbox_only_settings : Settings :=
  {| port := 8000;
     debug := false;
     log_level := "info";
     kokkoro_endpoint := None;
     chatterbox_endpoint := Some "http://chatterbox:8002";
     runpod_api_key := None;
     runpod_endpoint_id := None;
     default_timeout := 60%float;
     max_retries := 3;
     api_key := None;
     allowed_origins := ["*"] |}.

(** The request `{"text": "Hello"}` with the defaults of TTSRequest. *)
Definition hello_request : TTSRequest :=
  {| req_text := "Hello";
     req_voice_id := None;
     req_language := Some "en";
     req_format := WAV;
     req_sample_rate := Some 22050%Z;
     req_speed := Some 1%float;
     req_pitch := Some 1%float;
     req_volume := Some 1%float;
     req_model_params := None;
     req_normalize := true;
     req_remove_silence := false |}.

(** The example payload of TTSResponse in models.py. *)
Definition example_payload : pyval :=
  PyDict
    [ ("success", PyBool true);
      ("audio_data", PyStr "UklGRnoGAABXQVZFZm10IBAAAAABAAEA...");
      ("audio_format", PyStr "wav");
      ("duration", PyFloat 3.5%float);
      ("sample_rate", PyInt 22050);
      ("model_used", PyStr "kokkoro");
      ("voice_used", PyStr "default");
      ("language", PyStr "en");
      ("processing_time", PyFloat 1.25%float);
      ("text_length", PyInt 42);
      ("error", PyNone);
      ("warnings", PyNone) ].

Definition example_response : TTSResponse :=
  {| success := true;
     audio_data := Some "UklGRnoGAABXQVZFZm10IBAAAAABAAEA...";
     audio_format := WAV;
     duration := Some 3.5%float;
     sample_rate := 22050;
     model_used := "kokkoro";
     voice_used := Some "default";
     language := Some "en";
     processing_time := Some 1.25%float;
     text_length := 42;
     error := None;
     warnings := None |}.

Definition fresh_state : State :=
  {| request_counter := 0; calls := []; awaited := 0 |}.

(** A world whose backends answer every call the same way, whatever was
    called before. *)
Definition steady_world
    (post : string -> LibExc + Response)
    (stream : string -> LibExc + StreamResponse)
    (get : string -> LibExc + Response)
    (cost : Call -> nat) : World :=
  {| start_time := 1000%float;
     time_time := fun _ => 4600%float;
     utc_isoformat := fun _ => "2025-08-14T10:30:00+00:00";
     psutil_percent := fun _ => inr (45.5%float, 12.5%float);
     client_post := fun _ url _ _ => post url;
     client_stream := fun _ url _ _ => stream url;
     client_get := fun _ url _ => get url;
     latency := fun _ c => cost c |}.

Definition unreachable {A : Type} (url : string) : LibExc + A :=
  inl (RequestError "All connection attempts failed").

Definition replies (code : Z) (body : string) (parsed : LibExc + pyval)
    (url : string) : LibExc + Response :=
  inr {| status_code := code; text := body; json := parsed |}.

Definition not_json : LibExc + pyval :=
  inl (OtherException "Expecting value: line 1 column 1 (char 0)").

Definition no_cost (c : Call) : nat := 0.

(** ** Vocabulary of the properties *)

(** The endpoint setting the gateway reads for a model name: the lookup in
    MODEL_ENDPOINTS followed by the getattr on the settings. [None] is a name
    outside the registered set. *)
Definition endpoint_setting (settings : Settings) (model_name : string)
  : option (option string) :=
  match dict_get MODEL_ENDPOINTS model_name with
  | Some env_var => Some (getattr_endpoint settings (lower env_var))
  | None => None
  end.

(** The forwarding call of the dispatcher and what the backend replies to it
    when the process is in state [s]. *)
Definition generate_call (endpoint model_name : string) (request : TTSRequest) : Call :=
  POST (endpoint ++ "/generate") (prepare_request_data request model_name)
    forward_timeout.

Definition generate_reply (w : World) (endpoint model_name : string)
    (request : TTSRequest) (s : State) : LibExc + Response :=
  client_post w (calls s) (endpoint ++ "/generate")
    (prepare_request_data request model_name) forward_timeout.

(** The streaming attempt of the negotiator and its reply. *)
Definition stream_call (endpoint model_name : string) (request : TTSRequest) : Call :=
  STREAM (endpoint ++ "/generate/stream") (prepare_request_data request model_name)
    stream_timeout.

Definition stream_reply (w : World) (endpoint model_name : string)
    (request : TTSRequest) (s : State) : LibExc + StreamResponse :=
  client_stream w (calls s) (endpoint ++ "/generate/stream")
    (prepare_request_data request model_name) stream_timeout.

(** The streaming path answered 404: as the status of the response, or as
    the response of an HTTPStatusError. *)
Definition stream_not_found (reply : LibExc + StreamResponse) : bool :=
  match reply with
  | inr response => (stream_status_code response =? 404)%Z
  | inl (HTTPStatusError _ response) => (stream_status_code response =? 404)%Z
  | inl _ => false
  end.

(** A dispatcher outcome seen as a negotiator outcome. *)
Definition as_dispatched (r : (exn + TTSResponse) * State)
  : (exn + StreamOutcome) * State :=
  match r with
  | (inr x, s) => (inr (Dispatched x), s)
  | (inl e, s) => (inl e, s)
  end.

(** A backend whose answers to POST do not depend on the calls made before. *)
Definition post_ignores_history (w : World) : Prop :=
  forall h h' url body timeout,
    client_post w h url body timeout = client_post w h' url body timeout.

(** The liveness probe of one endpoint. *)
Definition probe_call (endpoint : string) : Call :=
  GET (endpoint ++ "/health") probe_timeout.

(** The endpoints an aggregation run probes, in the order it visits the
    settings. *)
Definition configured_endpoints (settings : Settings) : list string :=
  flat_map
    (fun setting =>
       match configured_endpoint setting with Some e => [e] | None => [] end)
    [kokkoro_endpoint settings; chatterbox_endpoint settings].

(** Time spent on calls issued one after another from history [h]. *)
Fixpoint sequential_latency (w : World) (h : list Call) (cs : list Call) : nat :=
  match cs with
  | [] => 0
  | c :: cs' => latency w h c + sequential_latency w (h ++ [c]) cs'
  end.

(** The largest time a single one of these calls takes. *)
Fixpoint slowest_latency (w : World) (h : list Call) (cs : list Call) : nat :=
  match cs with
  | [] => 0
  | c :: cs' => Nat.max (latency w h c) (slowest_latency w (h ++ [c]) cs')
  end.

(** Serving dispatch requests one after another; each request ends with a
    response or an error, and the process goes on. *)
Definition serve_dispatches (TTSResponse_init : pyval -> LibExc + TTSResponse)
    (py_repr : pyval -> string) (w : World) (settings : Settings)
    (requests : list (string * TTSRequest)) (s : State) : State :=
  fold_left
    (fun s' req =>
       snd (generate_tts TTSResponse_init py_repr w settings (fst req) (snd req) s'))
    requests s.

(** Example backends. *)
Definition ok_response : Response :=
  {| status_code := 200; text := "{...}"; json := inr example_payload |}.

Definition created_response : Response :=
  {| status_code := 201; text := "{...}"; json := inr example_payload |}.

Definition garbled_ok_response : Response :=
  {| status_code := 200; text := "<html>"; json := not_json |}.

Definition garbled_422_response : Response :=
  {| status_code := 422; text := "<html>"; json := not_json |}.

Definition detailed_422_response : Response :=
  {| status_code := 422;
     text := "{...}";
     json := inr (PyDict [("detail", PyStr "Text too long")]) |}.

Definition not_found_stream : StreamResponse :=
  {| stream_status_code := 404;
     stream_text := inl "response content was not read";
     stream_chunks := [];
     stream_error_message := "Client error '404 Not Found'" |}.

Definition healthy_response : Response :=
  {| status_code := 200;
     text := "{...}";
     json := inr (PyDict [("status", PyStr "healthy")]) |}.

Definition world_of_post (reply : LibExc + Response) : World :=
  steady_world (fun _ => reply) unreachable unreachable no_cost.

(** Streaming is not supported; the plain path and the probes answer 200. *)
Definition fallback_world : World :=
  steady_world (fun _ => inr ok_response) (fun _ => inr not_found_stream)
    (fun _ => inr healthy_response) no_cost.

(** Every backend answers its probe after three time units. *)
Definition slow_probe_world : World :=
  steady_world unreachable unreachable (fun _ => inr healthy_response)
    (fun _ => 3).

Definition three_requests : list (string * TTSRequest) :=
  [ ("unknownmodel", hello_request);
    ("kokkoro", hello_request);
    ("chatterbox", hello_request) ].

(** Issuing several calls one after another. *)
Definition issue_all (w : World) (cs : list Call) (s : State) : State :=
  fold_left (fun s' c => issue w c s') cs s.

(** What the prober reads off the reply to a probe sent after history [h]. *)
Definition probe_result (w : World) (h : list Call) (endpoint : string) : bool :=
  match client_get w h (endpoint ++ "/health") probe_timeout with
  | inr response => (status_code response =? 200)%Z
  | inl _ => false
  end.

(** The probes one endpoint setting gives rise to, and the status recorded
    for it. *)
Definition setting_probes (setting : option string) : list Call :=
  match configured_endpoint setting with
  | Some endpoint => [probe_call endpoint]
  | None => []
  end.

Definition setting_status (w : World) (h : list Call) (setting : option string) : bool :=
  match configured_endpoint setting with
  | Some endpoint => probe_result w h endpoint
  | None => false
  end.

(** The 200 of the specification's scenario: JSON without the required
    fields of TTSResponse. *)
Definition partial_payload : pyval :=
  PyDict [("audio", PyStr "..."); ("sample_rate", PyInt 22050)].

Definition partial_ok_response : Response :=
  {| status_code := 200; text := "{...}"; json := inr partial_payload |}.

(** ** More of main.py: the model list and the startup check *)

Record ModelListing : Type := {
  available : bool;
  listed_endpoint : string
}.

Record ModelsList : Type := {
  listed_models : dict ModelListing;
  total_models : Z
}.

(** `GET /models`: the loop over `MODEL_ENDPOINTS.items()`. *)
Definition list_models (settings : Settings) : ModelsList :=
  {| listed_models :=
       fold_left
         (fun models_status (item : string * string) =>
            let (model_name, env_var) := item in
            let endpoint := getattr_endpoint settings (lower env_var) in
            dict_set models_status model_name
              {| available := truthy endpoint;
                 listed_endpoint :=
                   match configured_endpoint endpoint with
                   | Some e => e
                   | None => "Not configured"
                   end |})
         MODEL_ENDPOINTS [];
     total_models := Z.of_nat (List.length MODEL_ENDPOINTS) |}.

(** `for x in xs: body(x)` in a coroutine. *)
Fixpoint for_each {A : Type} (xs : list A) (body : A -> M unit) : M unit :=
  match xs with
  | [] => ret tt
  | x :: xs' => (body x ;; for_each xs' body)%comp
  end.

Definition startup_timeout : float := 10%float.

(** `validate_model_endpoints(settings)`, run once at startup. [http_client]
    tells whether the global client has been created. The function only
    logs what it finds; the log lines are not part of the state. *)
Definition validate_model_endpoints (w : World) (http_client : bool)
    (settings : Settings) : M unit :=
  if negb http_client then ret tt
  else
    for_each MODEL_ENDPOINTS
      (fun item =>
         let (model_name, env_var) := item in
         match configured_endpoint (getattr_endpoint settings (lower env_var)) with
         | None => ret tt
         | Some endpoint =>
             try_except
               (response <- await_get w (endpoint ++ "/health") startup_timeout ;;
                if (status_code response =? 200)%Z then ret tt else ret tt)%comp
               (fun _ : LibExc => ret tt)
         end).

(** ** More of health.py: the statistics view *)

Record ServiceStats : Type := {
  uptime_seconds : float;
  total_requests : Z;
  requests_per_second : float;
  memory_usage_percent : option float;
  cpu_usage_percent : option float;
  stats_timestamp : string
}.

(** `max(x, 1)` for a float [x]: Python keeps [x] unless `1 > x`, and then
    the result is the int 1. *)
Definition max_with_one (x : float) : Z + float :=
  if PrimFloat.ltb x 1 then inl 1%Z else inr x.

Section Stats.

(** The conversion of an int to a float that `int / float` performs, and
    the true division `n / 1` of two ints: either may raise OverflowError
    on an int beyond the range of floats. *)
Variable float_of_int : Z -> LibExc + float.
Variable int_over_one : Z -> LibExc + float.

(** `n / d` for an int [n] and the value of `max(..., 1)`. *)
Definition truediv (n : Z) (d : Z + float) : M float :=
  match d with
  | inl _ => lib (int_over_one n)
  | inr y =>
      (x <- lib (float_of_int n) ;;
       if PrimFloat.eqb y 0
       then raise (Lib (OtherException "float division by zero"))
       else ret (PrimFloat.div x y))%comp
  end.

(** `GET /health/stats`. *)
Definition service_stats (w : World) : M ServiceStats :=
  (system_stats <- get_system_stats w ;;
   up <- get_uptime w ;;
   counter <- read_request_counter ;;
   up' <- get_uptime w ;;
   rate <- truediv counter (max_with_one up') ;;
   now <- now_isoformat w ;;
   ret {| uptime_seconds := up;
          total_requests := counter;
          requests_per_second := rate;
          memory_usage_percent := stat_memory_usage system_stats;
          cpu_usage_percent := stat_cpu_usage system_stats;
          stats_timestamp := now |})%comp.

End Stats.

(** ** config.py: the validators of Settings *)

(** `s.startswith(prefix)`. *)
Definition startswith (s prefix : string) : bool := String.prefix prefix s.

(** `validate_endpoints(cls, v)`: a ValueError unless [v] is falsy or starts
    with one of the two schemes. *)
Definition validate_endpoints (v : option string) : LibExc + option string :=
  match v with
  | Some s =>
      if andb (truthy v) (negb (existsb (startswith s) ["http://"; "https://"]))
      then inl (OtherException "Endpoint must start with http:// or https://")
      else inr v
  | None => inr v
  end.

(** `validate_port(cls, v)`. *)
Definition validate_port (v : Z) : LibExc + Z :=
  if negb (andb (1 <=? v)%Z (v <=? 65535)%Z)
  then inl (OtherException "Port must be between 1 and 65535")
  else inr v.

(** Settings whose endpoint fields went through the validator. *)
Definition endpoints_validated (settings : Settings) : Prop :=
  validate_endpoints (kokkoro_endpoint settings) = inr (kokkoro_endpoint settings)
  /\ validate_endpoints (chatterbox_endpoint settings) =
       inr (chatterbox_endpoint settings).

(** ** models.py: the text validator of TTSRequest *)

(** The validator looks at the characters of the text, and the characters of
    a Python `str` are Unicode code points, not bytes: here the text is the
    list of its code points. *)
Definition pystr : Type := list N.

(** `c.isspace()`, the test `str.strip()` applies at each end: the
    whitespace code points of CPython's Unicode tables (the ASCII controls
    9 to 13 and 28 to 31, the space, U+0085, U+00A0, U+1680, U+2000 to
    U+200A, U+2028, U+2029, U+202F, U+205F and U+3000). *)
Definition isspace (c : N) : bool :=
  ((9 <=? c) && (c <=? 13)
   || (28 <=? c) && (c <=? 32)
   || (c =? 133) || (c =? 160) || (c =? 5760)
   || (8192 <=? c) && (c <=? 8202)
   || (c =? 8232) || (c =? 8233) || (c =? 8239) || (c =? 8287)
   || (c =? 12288))%N%bool.

(** `s.lstrip()`. *)
Fixpoint lstrip (s : pystr) : pystr :=
  match s with
  | [] => []
  | c :: s' => if isspace c then lstrip s' else s
  end.

(** `s.rstrip()`. *)
Fixpoint rstrip (s : pystr) : pystr :=
  match s with
  | [] => []
  | c :: s' =>
      match rstrip s' with
      | [] => if isspace c then [] else [c]
      | r => c :: r
      end
  end.

(** `s.strip()`. *)
Definition strip (s : pystr) : pystr := rstrip (lstrip s).

(** `validate_text(cls, v)`: `not v.strip()` holds of the empty `str`
    only. *)
Definition validate_text (v : pystr) : LibExc + pystr :=
  match strip v with
  | [] => inl (OtherException "Text cannot be empty or whitespace only")
  | _ :: _ => inr (strip v)
  end.

(** The code points of a text written in ASCII. *)
Definition code_points (s : string) : pystr :=
  map N_of_ascii (list_ascii_of_string s).

(** The URL a call goes to. *)
Definition call_url (c : Call) : string :=
  match c with
  | POST url _ _ | STREAM url _ _ | GET url _ => url
  end.

Definition has_scheme (url : string) : bool :=
  orb (startswith url "http://") (startswith url "https://").

(** ** Vocabulary of the further properties *)

Definition startup_probe (endpoint : string) : Call :=
  GET (endpoint ++ "/health") startup_timeout.

(** Backends whose answer to a probe does not depend on the calls made
    before. *)
Definition get_ignores_history (w : World) : Prop :=
  forall h h' url timeout, client_get w h url timeout = client_get w h' url timeout.

(** The conversion of a request count to a float: exact below 2^53 and
    rounded to the nearest float below 2^63, as Python converts such ints. *)
Definition count_to_float (n : Z) : LibExc + float :=
  inr (PrimFloat.of_uint63 (Uint63Axioms.of_Z n)).

(** All characters of [s] are whitespace. *)
Definition blank (s : pystr) : bool := forallb isspace s.

(** [t] is not empty and neither its first nor its last character is
    whitespace. *)
Definition no_space_at_ends (t : pystr) : Prop :=
  (exists c, hd_error t = Some c /\ isspace c = false)
  /\ (exists c, hd_error (rev t) = Some c /\ isspace c = false).

Definition overloaded_response : Response :=
  {| status_code := 503; text := EmptyString; json := not_json |}.

Definition stream_timeout_world : World :=
  steady_world (fun _ => inr ok_response)
    (fun _ => inl (TimeoutException "timed out")) unreachable no_cost.


(** * Properties *)

(** ** The registry *)

Lemma MODEL_ENDPOINTS_lookup (model_name : string) :
  dict_get MODEL_ENDPOINTS model_name =
    if String.eqb "kokkoro" model_name then Some "KOKKORO_ENDPOINT"
    else if String.eqb "chatterbox" model_name then Some "CHATTERBOX_ENDPOINT"
    else None.
Proof. reflexivity. Qed.

Lemma MODEL_ENDPOINTS_unknown (model_name : string) :
  model_name <> "kokkoro" -> model_name <> "chatterbox" ->
  dict_get MODEL_ENDPOINTS model_name = None.
Proof.
  intros Hk Hc. rewrite MODEL_ENDPOINTS_lookup.
  destruct (String.eqb_spec "kokkoro" model_name) as [E | _]; [congruence |].
  destruct (String.eqb_spec "chatterbox" model_name) as [E | _]; [congruence |].
  reflexivity.
Qed.

(** The registered names are kokkoro and chatterbox, and each reads its own
    endpoint field of the settings. *)
Lemma endpoint_setting_spec (settings : Settings) (model_name : string) :
  endpoint_setting settings model_name =
    if String.eqb "kokkoro" model_name then Some (kokkoro_endpoint settings)
    else if String.eqb "chatterbox" model_name then Some (chatterbox_endpoint settings)
    else None.
Proof.
  unfold endpoint_setting. rewrite MODEL_ENDPOINTS_lookup.
  destruct (String.eqb "kokkoro" model_name); [reflexivity |].
  destruct (String.eqb "chatterbox" model_name); reflexivity.
Qed.

Lemma endpoint_setting_env (settings : Settings) (model_name : string)
    (setting : option string) :
  endpoint_setting settings model_name = Some setting ->
  exists env_var,
    dict_get MODEL_ENDPOINTS model_name = Some env_var /\
    getattr_endpoint settings (lower env_var) = setting.
Proof.
  unfold endpoint_setting. intros H.
  destruct (dict_get MODEL_ENDPOINTS model_name) as [env_var |]; [| discriminate].
  exists env_var. split; [reflexivity | congruence].
Qed.

Lemma configured_endpoint_none (setting : option string) :
  truthy setting = false -> configured_endpoint setting = None.
Proof. unfold configured_endpoint. intros ->. reflexivity. Qed.

Lemma configured_endpoint_some (endpoint : string) :
  endpoint <> EmptyString -> configured_endpoint (Some endpoint) = Some endpoint.
Proof.
  intros H. unfold configured_endpoint, truthy.
  destruct (String.eqb_spec endpoint EmptyString); [contradiction | reflexivity].
Qed.

Lemma configured_endpoint_inv (setting : option string) (endpoint : string) :
  configured_endpoint setting = Some endpoint ->
  setting = Some endpoint /\ endpoint <> EmptyString /\ truthy setting = true.
Proof.
  unfold configured_endpoint. destruct (truthy setting) eqn:T; [| discriminate].
  intros ->. repeat split. unfold truthy in T.
  destruct (String.eqb_spec endpoint EmptyString); [discriminate | assumption].
Qed.

Lemma configured_endpoint_falsy (setting : option string) :
  configured_endpoint setting = None -> truthy setting = false.
Proof.
  unfold configured_endpoint. destruct (truthy setting) eqn:T; [| reflexivity].
  intros ->. discriminate T.
Qed.

(** ** The dispatcher *)

Section DispatchFacts.

Variable TTSResponse_init : pyval -> LibExc + TTSResponse.
Variable py_repr : pyval -> string.
Variable w : World.
Variable settings : Settings.
Variable model_name : string.
Variable request : TTSRequest.

Local Abbreviation dispatch :=
  (generate_tts TTSResponse_init py_repr w settings model_name request).
Local Abbreviation classify endpoint :=
  (forward_and_classify TTSResponse_init py_repr w endpoint
     (prepare_request_data request model_name)).

Lemma dispatch_unknown (s : State) :
  model_name <> "kokkoro" -> model_name <> "chatterbox" ->
  dispatch s =
    (inl (HTTPException HTTP_400_BAD_REQUEST
            ("Unknown model: " ++ model_name
             ++ ". Available models: ['kokkoro', 'chatterbox']")), s).
Proof.
  intros Hk Hc. unfold generate_tts.
  rewrite (MODEL_ENDPOINTS_unknown _ Hk Hc). reflexivity.
Qed.

Lemma dispatch_unconfigured (setting : option string) (s : State) :
  endpoint_setting settings model_name = Some setting ->
  truthy setting = false ->
  exists env_var,
    dict_get MODEL_ENDPOINTS model_name = Some env_var /\
    dispatch s =
      (inl (HTTPException HTTP_503_SERVICE_UNAVAILABLE
              ("Model " ++ model_name ++ " is not configured. Please set "
               ++ env_var ++ " environment variable.")), s).
Proof.
  intros Hreg Hfalsy.
  destruct (endpoint_setting_env _ _ _ Hreg) as (env_var & Henv & Hget).
  exists env_var. split; [assumption |].
  unfold generate_tts. rewrite Henv, Hget.
  rewrite (configured_endpoint_none _ Hfalsy). reflexivity.
Qed.

(** With a configured endpoint the dispatcher runs its `try` block under its
    two handlers. *)
Lemma dispatch_configured (endpoint : string) :
  endpoint_setting settings model_name = Some (Some endpoint) ->
  endpoint <> EmptyString ->
  dispatch =
    try_except (classify endpoint)
      (fun e =>
         match e with
         | HTTPException _ _ => raise e
         | Lib e' =>
             raise (HTTPException HTTP_500_INTERNAL_SERVER_ERROR
                      ("Internal server error: " ++ str_exc e'))
         end).
Proof.
  intros Hreg Hne.
  destruct (endpoint_setting_env _ _ _ Hreg) as (env_var & Henv & Hget).
  unfold generate_tts. rewrite Henv, Hget.
  rewrite (configured_endpoint_some _ Hne). reflexivity.
Qed.

Lemma forward_request_reply (endpoint : string) (s : State) :
  forward_request w endpoint (prepare_request_data request model_name)
    forward_timeout s =
    (match generate_reply w endpoint model_name request s with
     | inr response => inr response
     | inl (TimeoutException _) =>
         inl (HTTPException HTTP_504_GATEWAY_TIMEOUT
                ("Model endpoint timeout: " ++ endpoint))
     | inl (RequestError _) =>
         inl (HTTPException HTTP_503_SERVICE_UNAVAILABLE
                ("Cannot reach model endpoint: " ++ endpoint))
     | inl e =>
         inl (HTTPException HTTP_500_INTERNAL_SERVER_ERROR
                ("Internal server error: " ++ str_exc e))
     end,
     issue w (generate_call endpoint model_name request) s).
Proof.
  unfold forward_request, try_except, await_post, generate_reply, generate_call.
  destruct (client_post w (calls s) _ _ _) as [[m | m | m r | m] | response];
    reflexivity.
Qed.

(** The forwarding call is issued exactly once, whatever comes back. *)
Lemma classify_state (endpoint : string) (s : State) :
  snd (classify endpoint s) = issue w (generate_call endpoint model_name request) s.
Proof.
  unfold forward_and_classify, bind. rewrite forward_request_reply.
  destruct (generate_reply w endpoint model_name request s)
    as [[m | m | m r | m] | response]; try reflexivity.
  destruct (status_code response =? 200)%Z.
  - unfold lib. destruct (json response) as [e | d]; [reflexivity |].
    destruct (TTSResponse_init d); reflexivity.
  - destruct (status_code response =? 422)%Z; [| reflexivity].
    unfold lib. destruct (json response) as [e | d]; [reflexivity |].
    destruct (py_get d "detail" (PyStr "Validation error")); reflexivity.
Qed.

(** A transport failure of the forwarding call, classified. *)
Lemma dispatch_transport_failure (endpoint : string) (e : LibExc) (s : State) :
  endpoint_setting settings model_name = Some (Some endpoint) ->
  endpoint <> EmptyString ->
  generate_reply w endpoint model_name request s = inl e ->
  dispatch s =
    (inl (match e with
          | TimeoutException _ =>
              HTTPException HTTP_504_GATEWAY_TIMEOUT
                ("Model endpoint timeout: " ++ endpoint)
          | RequestError _ =>
              HTTPException HTTP_503_SERVICE_UNAVAILABLE
                ("Cannot reach model endpoint: " ++ endpoint)
          | _ =>
              HTTPException HTTP_500_INTERNAL_SERVER_ERROR
                ("Internal server error: " ++ str_exc e)
          end),
     issue w (generate_call endpoint model_name request) s).
Proof.
  intros Hreg Hne Hreply. rewrite (dispatch_configured _ Hreg Hne).
  unfold try_except, forward_and_classify, bind.
  rewrite forward_request_reply, Hreply.
  destruct e; reflexivity.
Qed.

(** A response of the backend, classified by the `try` block. *)
Lemma dispatch_response (endpoint : string) (response : Response) (s : State) :
  endpoint_setting settings model_name = Some (Some endpoint) ->
  endpoint <> EmptyString ->
  generate_reply w endpoint model_name request s = inr response ->
  classify endpoint s =
    ((if (status_code response =? 200)%Z then
        response_data <- lib (json response) ;;
        lib (TTSResponse_init response_data)
      else if (status_code response =? 422)%Z then
        body <- lib (json response) ;;
        error_detail <- lib (py_get body "detail" (PyStr "Validation error")) ;;
        raise (HTTPException HTTP_422_UNPROCESSABLE_ENTITY
                 ("Model validation error: " ++ py_str py_repr error_detail))
      else
        raise (HTTPException (status_code response)
                 ("Model endpoint error: "
                  ++ (if String.eqb (text response) EmptyString
                      then "HTTP " ++ str_int (status_code response)
                      else text response))))%comp
       (issue w (generate_call endpoint model_name request) s)).
Proof.
  intros _ _ Hreply. unfold forward_and_classify, bind at 1.
  rewrite forward_request_reply, Hreply. reflexivity.
Qed.

(** Whatever the `try` block raises that is no HTTPException leaves the
    dispatcher as a 500. *)
Lemma dispatch_unexpected (endpoint : string) (e : LibExc) (s s' : State) :
  endpoint_setting settings model_name = Some (Some endpoint) ->
  endpoint <> EmptyString ->
  classify endpoint s = (inl (Lib e), s') ->
  dispatch s =
    (inl (HTTPException HTTP_500_INTERNAL_SERVER_ERROR
            ("Internal server error: " ++ str_exc e)), s').
Proof.
  intros Hreg Hne Hrun. rewrite (dispatch_configured _ Hreg Hne).
  unfold try_except. rewrite Hrun. reflexivity.
Qed.

(** The dispatcher raises nothing but HTTPException. *)
Lemma dispatch_raises_http (s : State) (e : exn) (s' : State) :
  dispatch s = (inl e, s') -> exists code detail, e = HTTPException code detail.
Proof.
  unfold generate_tts.
  destruct (dict_get MODEL_ENDPOINTS model_name) as [env_var |].
  - destruct (configured_endpoint _) as [endpoint |].
    + unfold try_except.
      destruct (forward_and_classify _ _ _ _ _ s) as [[[code detail | e'] | r] s1];
        unfold raise; intros H; inversion H; eauto.
    + unfold raise. intros H. inversion H. eauto.
  - unfold raise. intros H. inversion H. eauto.
Qed.

(** The dispatcher never touches the request counter. *)
Lemma issue_request_counter (c : Call) (s : State) :
  request_counter (issue w c s) = request_counter s.
Proof. reflexivity. Qed.

Lemma dispatch_request_counter (s : State) :
  request_counter (snd (dispatch s)) = request_counter s.
Proof.
  unfold generate_tts.
  destruct (dict_get MODEL_ENDPOINTS model_name) as [env_var |]; [| reflexivity].
  destruct (configured_endpoint _) as [endpoint |]; [| reflexivity].
  unfold try_except.
  pose proof (classify_state endpoint s) as Hs.
  destruct (forward_and_classify _ _ _ _ _ s) as [[[code detail | e'] | r] s1];
    simpl in Hs |- *; subst s1; reflexivity.
Qed.

End DispatchFacts.

(** ** Claims about the dispatcher *)

(** C1. Every dispatch call classifies its failures the same way: a model
    name outside the registered set {kokkoro, chatterbox} is refused with 400
    (InvalidModel) before anything is sent; a registered model whose endpoint
    setting is absent or empty is refused with 503 (BackendUnavailable), again
    with nothing sent; once the request is forwarded, a transport timeout
    gives 504 (Timeout), any other request error gives 503
    (BackendUnavailable), any other exception of the forwarding call gives
    500 (Internal), and so does any library exception raised while the
    response is classified. *)
Theorem dispatch_failure_taxonomy
    (TTSResponse_init : pyval -> LibExc + TTSResponse) (py_repr : pyval -> string)
    (w : World) (settings : Settings) (model_name : string)
    (request : TTSRequest) (s : State) :
  (model_name <> "kokkoro" -> model_name <> "chatterbox" ->
   exists detail,
     generate_tts TTSResponse_init py_repr w settings model_name request s =
       (inl (HTTPException HTTP_400_BAD_REQUEST detail), s))
  /\
  (forall setting,
     endpoint_setting settings model_name = Some setting ->
     truthy setting = false ->
     exists detail,
       generate_tts TTSResponse_init py_repr w settings model_name request s =
         (inl (HTTPException HTTP_503_SERVICE_UNAVAILABLE detail), s))
  /\
  (forall endpoint,
     endpoint_setting settings model_name = Some (Some endpoint) ->
     endpoint <> EmptyString ->
     let sent := issue w (generate_call endpoint model_name request) s in
     (forall message,
        generate_reply w endpoint model_name request s = inl (TimeoutException message) ->
        generate_tts TTSResponse_init py_repr w settings model_name request s =
          (inl (HTTPException HTTP_504_GATEWAY_TIMEOUT
                  ("Model endpoint timeout: " ++ endpoint)), sent))
     /\
     (forall message,
        generate_reply w endpoint model_name request s = inl (RequestError message) ->
        generate_tts TTSResponse_init py_repr w settings model_name request s =
          (inl (HTTPException HTTP_503_SERVICE_UNAVAILABLE
                  ("Cannot reach model endpoint: " ++ endpoint)), sent))
     /\
     (forall e,
        generate_reply w endpoint model_name request s = inl e ->
        (forall message, e <> TimeoutException message) ->
        (forall message, e <> RequestError message) ->
        generate_tts TTSResponse_init py_repr w settings model_name request s =
          (inl (HTTPException HTTP_500_INTERNAL_SERVER_ERROR
                  ("Internal server error: " ++ str_exc e)), sent))
     /\
     (forall e s',
        forward_and_classify TTSResponse_init py_repr w endpoint
          (prepare_request_data request model_name) s = (inl (Lib e), s') ->
        generate_tts TTSResponse_init py_repr w settings model_name request s =
          (inl (HTTPException HTTP_500_INTERNAL_SERVER_ERROR
                  ("Internal server error: " ++ str_exc e)), s'))).
Proof.
  split; [| split].
  - intros Hk Hc. eexists. apply dispatch_unknown; assumption.
  - intros setting Hreg Hfalsy.
    destruct (dispatch_unconfigured TTSResponse_init py_repr w settings model_name
                request setting s Hreg Hfalsy) as (env_var & _ & Hrun).
    eexists. exact Hrun.
  - intros endpoint Hreg Hne sent. split; [| split; [| split]].
    + intros message Hreply.
      apply (dispatch_transport_failure _ _ _ _ _ _ _ _ _ Hreg Hne Hreply).
    + intros message Hreply.
      apply (dispatch_transport_failure _ _ _ _ _ _ _ _ _ Hreg Hne Hreply).
    + intros e Hreply Hnt Hnr.
      rewrite (dispatch_transport_failure _ _ _ _ _ _ _ _ _ Hreg Hne Hreply).
      destruct e as [m | m | m r | m]; try reflexivity.
      * exfalso. exact (Hnt m eq_refl).
      * exfalso. exact (Hnr m eq_refl).
    + intros e s' Hrun. apply (dispatch_unexpected _ _ _ _ _ _ _ _ _ _ Hreg Hne Hrun).
Qed.

(** C1, on concrete requests: an unknown name; kokkoro with no endpoint set;
    and chatterbox behind a backend that times out, refuses the connection,
    or fails in some other way. *)
Lemma dispatch_failure_taxonomy_witness :
  (exists detail,
     generate_tts TTSResponse_typed repr_unused (world_of_post (inr ok_response))
       chatterbox_only_settings "unknownmodel" hello_request fresh_state =
       (inl (HTTPException 400 detail), fresh_state))
  /\
  (exists detail,
     generate_tts TTSResponse_typed repr_unused (world_of_post (inr ok_response))
       chatterbox_only_settings "kokkoro" hello_request fresh_state =
       (inl (HTTPException 503 detail), fresh_state))
  /\
  fst (generate_tts TTSResponse_typed repr_unused
         (world_of_post (inl (TimeoutException "timed out")))
         chatterbox_only_settings "chatterbox" hello_request fresh_state) =
    inl (HTTPException 504 "Model endpoint timeout: http://chatterbox:8002")
  /\
  fst (generate_tts TTSResponse_typed repr_unused
         (world_of_post (inl (RequestError "All connection attempts failed")))
         chatterbox_only_settings "chatterbox" hello_request fresh_state) =
    inl (HTTPException 503 "Cannot reach model endpoint: http://chatterbox:8002")
  /\
  fst (generate_tts TTSResponse_typed repr_unused
         (world_of_post (inl (OtherException "event loop is closed")))
         chatterbox_only_settings "chatterbox" hello_request fresh_state) =
    inl (HTTPException 500 "Internal server error: event loop is closed")
  /\
  fst (generate_tts TTSResponse_typed repr_unused
         (world_of_post (inr garbled_ok_response))
         chatterbox_only_settings "chatterbox" hello_request fresh_state) =
    inl (HTTPException 500
           "Internal server error: Expecting value: line 1 column 1 (char 0)").
Proof.
  split; [| split; [| split; [| split; [| split]]]].
  - apply (dispatch_failure_taxonomy TTSResponse_typed repr_unused
             (world_of_post (inr ok_response)) chatterbox_only_settings
             "unknownmodel" hello_request fresh_state); discriminate.
  - apply (proj1 (proj2 (dispatch_failure_taxonomy TTSResponse_typed repr_unused
             (world_of_post (inr ok_response)) chatterbox_only_settings
             "kokkoro" hello_request fresh_state)) None); reflexivity.
  - rewrite (proj1 (proj2 (proj2 (dispatch_failure_taxonomy TTSResponse_typed
             repr_unused (world_of_post (inl (TimeoutException "timed out")))
             chatterbox_only_settings "chatterbox" hello_request fresh_state))
             "http://chatterbox:8002" eq_refl ltac:(discriminate)) "timed out" eq_refl).
    reflexivity.
  - rewrite (proj1 (proj2 (proj2 (proj2 (dispatch_failure_taxonomy TTSResponse_typed
             repr_unused
             (world_of_post (inl (RequestError "All connection attempts failed")))
             chatterbox_only_settings "chatterbox" hello_request fresh_state))
             "http://chatterbox:8002" eq_refl ltac:(discriminate)))
             "All connection attempts failed" eq_refl).
    reflexivity.
  - rewrite (proj1 (proj2 (proj2 (proj2 (proj2 (dispatch_failure_taxonomy
             TTSResponse_typed repr_unused
             (world_of_post (inl (OtherException "event loop is closed")))
             chatterbox_only_settings "chatterbox" hello_request fresh_state))
             "http://chatterbox:8002" eq_refl ltac:(discriminate))))
             (OtherException "event loop is closed") eq_refl
             ltac:(discriminate) ltac:(discriminate)).
    reflexivity.
  - rewrite (proj2 (proj2 (proj2 (proj2 (proj2 (dispatch_failure_taxonomy
             TTSResponse_typed repr_unused (world_of_post (inr garbled_ok_response))
             chatterbox_only_settings "chatterbox" hello_request fresh_state))
             "http://chatterbox:8002" eq_refl ltac:(discriminate))))
             (OtherException "Expecting value: line 1 column 1 (char 0)")
             (issue (world_of_post (inr garbled_ok_response))
                (generate_call "http://chatterbox:8002" "chatterbox" hello_request)
                fresh_state)
             eq_refl).
    reflexivity.
Defined.

(** C10. When the backend answers 200 but the body does not parse as JSON,
    or parses to data the TTSResponse constructor rejects, the dispatcher
    raises 500 (Internal) carrying the text of the library's error: neither a
    success nor a backend error with the backend's status. *)
Theorem unparseable_ok_body_is_internal
    (TTSResponse_init : pyval -> LibExc + TTSResponse) (py_repr : pyval -> string)
    (w : World) (settings : Settings) (model_name : string)
    (request : TTSRequest) (s : State)
    (endpoint : string) (response : Response) (e : LibExc) :
  endpoint_setting settings model_name = Some (Some endpoint) ->
  endpoint <> EmptyString ->
  generate_reply w endpoint model_name request s = inr response ->
  status_code response = 200%Z ->
  json response = inl e \/
  (exists response_data,
     json response = inr response_data /\ TTSResponse_init response_data = inl e) ->
  generate_tts TTSResponse_init py_repr w settings model_name request s =
    (inl (HTTPException HTTP_500_INTERNAL_SERVER_ERROR
            ("Internal server error: " ++ str_exc e)),
     issue w (generate_call endpoint model_name request) s).
Proof.
  intros Hreg Hne Hreply Hstatus Hbad.
  apply (dispatch_unexpected _ _ _ _ _ _ _ _ _ _ Hreg Hne).
  rewrite (dispatch_response _ _ _ _ _ _ _ _ _ Hreg Hne Hreply).
  rewrite Hstatus. cbn [Z.eqb Pos.eqb]. unfold bind, lib.
  destruct Hbad as [Hjson | (response_data & Hjson & Hinit)].
  - rewrite Hjson. reflexivity.
  - rewrite Hjson, Hinit. reflexivity.
Qed.

(** C10, on a 200 whose body is HTML, and on the 200 of the spec's scenario,
    whose JSON lacks the required fields of TTSResponse. *)
Lemma unparseable_ok_body_is_internal_witness :
  generate_tts TTSResponse_typed repr_unused (world_of_post (inr garbled_ok_response))
    development_settings "kokkoro" hello_request fresh_state =
    (inl (HTTPException 500
            "Internal server error: Expecting value: line 1 column 1 (char 0)"),
     issue (world_of_post (inr garbled_ok_response))
       (generate_call "http://kokkoro:8001" "kokkoro" hello_request) fresh_state)
  /\
  generate_tts TTSResponse_typed repr_unused (world_of_post (inr partial_ok_response))
    development_settings "kokkoro" hello_request fresh_state =
    (inl (HTTPException 500 "Internal server error: validation error for TTSResponse"),
     issue (world_of_post (inr partial_ok_response))
       (generate_call "http://kokkoro:8001" "kokkoro" hello_request) fresh_state).
Proof.
  split.
  - apply (unparseable_ok_body_is_internal TTSResponse_typed repr_unused
             (world_of_post (inr garbled_ok_response)) development_settings
             "kokkoro" hello_request fresh_state "http://kokkoro:8001"
             garbled_ok_response
             (OtherException "Expecting value: line 1 column 1 (char 0)")).
    + reflexivity.
    + discriminate.
    + reflexivity.
    + reflexivity.
    + left. reflexivity.
  - apply (unparseable_ok_body_is_internal TTSResponse_typed repr_unused
             (world_of_post (inr partial_ok_response)) development_settings
             "kokkoro" hello_request fresh_state "http://kokkoro:8001"
             partial_ok_response
             (OtherException "validation error for TTSResponse")).
    + reflexivity.
    + discriminate.
    + reflexivity.
    + reflexivity.
    + right. exists partial_payload. split; reflexivity.
Defined.

(** C4 as stated fails: the backend answers 201, a 2xx status, with the
    example payload of models.py, which the constructor accepts; the
    dispatcher raises an HTTPException with status 201 instead of returning
    the response. *)
Lemma created_status_is_not_success :
  generate_reply (world_of_post (inr created_response)) "http://kokkoro:8001"
    "kokkoro" hello_request fresh_state = inr created_response
  /\ (200 <= status_code created_response <= 299)%Z
  /\ json created_response = inr example_payload
  /\ TTSResponse_typed example_payload = inr example_response
  /\ fst (generate_tts TTSResponse_typed repr_unused
            (world_of_post (inr created_response))
            development_settings "kokkoro" hello_request fresh_state) =
       inl (HTTPException 201 "Model endpoint error: {...}")
  /\ fst (generate_tts TTSResponse_typed repr_unused
            (world_of_post (inr created_response))
            development_settings "kokkoro" hello_request fresh_state) <>
       inr example_response.
Proof.
  split; [reflexivity |]. split; [cbn; lia |]. split; [reflexivity |].
  split; [reflexivity |]. split; [reflexivity |]. discriminate.
Qed.

Lemma obind_some {A B : Type} (o : option A) (k : A -> option B) (b : B) :
  obind o k = Some b -> exists a, o = Some a /\ k a = Some b.
Proof. destruct o as [a |]; [| discriminate]. intros H. exists a. auto. Qed.

Lemma required_some {A : Type} (conv : pyval -> option A) (items : dict pyval)
    (k : string) (a : A) :
  required conv items k = Some a ->
  exists v, dict_get items k = Some v /\ conv v = Some a.
Proof.
  unfold required. destruct (dict_get items k) as [v |]; [| discriminate].
  intros H. exists v. auto.
Qed.

Lemma optional_carries {A : Type} (conv : pyval -> option A) (inj : A -> pyval)
    (items : dict pyval) (k : string) (o : option A) :
  (forall v a, conv v = Some a -> v = inj a) ->
  optional conv items k = Some o -> carries inj items k o.
Proof.
  intros Hconv. unfold optional, carries.
  destruct (dict_get items k) as [v |].
  - destruct (conv v) as [a |] eqn:E.
    + destruct v; cbn [option_map]; intros H; inversion H; subst;
        try (rewrite (Hconv _ _ E); reflexivity).
      right. reflexivity.
    + destruct v; cbn [option_map]; intros H; inversion H.
      right. reflexivity.
  - intros H. inversion H. left. reflexivity.
Qed.

Lemma as_str_inv (v : pyval) (a : string) : as_str v = Some a -> v = PyStr a.
Proof. destruct v; try discriminate. intros H. inversion H. reflexivity. Qed.

Lemma as_float_inv (v : pyval) (a : float) : as_float v = Some a -> v = PyFloat a.
Proof. destruct v; try discriminate. intros H. inversion H. reflexivity. Qed.

Lemma as_int_inv (v : pyval) (a : Z) : as_int v = Some a -> v = PyInt a.
Proof. destruct v; try discriminate. intros H. inversion H. reflexivity. Qed.

Lemma as_bool_inv (v : pyval) (a : bool) : as_bool v = Some a -> v = PyBool a.
Proof. destruct v; try discriminate. intros H. inversion H. reflexivity. Qed.

Lemma as_str_list_inv (l : list pyval) (ls : list string) :
  as_str_list l = Some ls -> l = map PyStr ls.
Proof.
  revert ls. induction l as [| v l IH]; intros ls; cbn [as_str_list].
  - intros H. inversion H. reflexivity.
  - destruct v; try discriminate.
    destruct (as_str_list l) as [ls' |]; [| discriminate].
    cbn [option_map]. intros H. inversion H. cbn [map].
    rewrite (IH ls' eq_refl). reflexivity.
Qed.

Lemma as_list_of_str_inv (v : pyval) (ls : list string) :
  as_list_of_str v = Some ls -> v = PyList (map PyStr ls).
Proof.
  destruct v; try discriminate. cbn [as_list_of_str].
  intros H. rewrite (as_str_list_inv _ _ H). reflexivity.
Qed.

Lemma AudioFormat_of_value_inv (s : string) (f : AudioFormat) :
  AudioFormat_of_value s = Some f -> s = AudioFormat_value f.
Proof.
  unfold AudioFormat_of_value.
  destruct (String.eqb_spec s "wav") as [-> |]; [intros H; inversion H; reflexivity |].
  destruct (String.eqb_spec s "mp3") as [-> |]; [intros H; inversion H; reflexivity |].
  destruct (String.eqb_spec s "ogg") as [-> |]; [intros H; inversion H; reflexivity |].
  destruct (String.eqb_spec s "flac") as [-> |]; [intros H; inversion H; reflexivity |].
  discriminate.
Qed.

(** A payload the schema takes as it is gives a response that carries each
    of its fields unchanged. *)
Lemma TTSResponse_fields_carried (items : dict pyval) (r : TTSResponse) :
  TTSResponse_fields items = Some r -> payload_carried items r.
Proof.
  unfold TTSResponse_fields. intros H.
  apply obind_some in H. destruct H as (b & Hsuccess & H).
  apply obind_some in H. destruct H as (ad & Haudio & H).
  apply obind_some in H. destruct H as (af & Hformat & H).
  apply obind_some in H. destruct H as (du & Hduration & H).
  apply obind_some in H. destruct H as (sr & Hrate & H).
  apply obind_some in H. destruct H as (mu & Hmodel & H).
  apply obind_some in H. destruct H as (vu & Hvoice & H).
  apply obind_some in H. destruct H as (la & Hlanguage & H).
  apply obind_some in H. destruct H as (pt & Hprocessing & H).
  apply obind_some in H. destruct H as (tl & Hlength & H).
  apply obind_some in H. destruct H as (er & Herror & H).
  apply obind_some in H. destruct H as (wa & Hwarnings & H).
  match type of H with (if ?c then _ else _) = _ => destruct c end;
    [| discriminate].
  inversion H. subst r. clear H. unfold payload_carried.
  cbn [success audio_data audio_format duration sample_rate model_used voice_used
       language processing_time text_length error warnings].
  apply required_some in Hsuccess. destruct Hsuccess as (v1 & -> & H1).
  apply obind_some in Hformat. destruct Hformat as (fs & Hformat & Hf).
  apply required_some in Hformat. destruct Hformat as (v2 & -> & H2).
  apply required_some in Hrate. destruct Hrate as (v3 & -> & H3).
  apply required_some in Hmodel. destruct Hmodel as (v4 & -> & H4).
  apply required_some in Hlength. destruct Hlength as (v5 & -> & H5).
  rewrite (as_bool_inv _ _ H1), (as_str_inv _ _ H2), (as_int_inv _ _ H3),
    (as_str_inv _ _ H4), (as_int_inv _ _ H5).
  rewrite (AudioFormat_of_value_inv _ _ Hf).
  split; [reflexivity |].
  split; [exact (optional_carries _ _ _ _ _ as_str_inv Haudio) |].
  split; [reflexivity |].
  split; [exact (optional_carries _ _ _ _ _ as_float_inv Hduration) |].
  split; [reflexivity |]. split; [reflexivity |].
  split; [exact (optional_carries _ _ _ _ _ as_str_inv Hvoice) |].
  split; [exact (optional_carries _ _ _ _ _ as_str_inv Hlanguage) |].
  split; [exact (optional_carries _ _ _ _ _ as_float_inv Hprocessing) |].
  split; [reflexivity |].
  split; [exact (optional_carries _ _ _ _ _ as_str_inv Herror) |].
  exact (optional_carries _ _ _ _ _ as_list_of_str_inv Hwarnings).
Qed.

Lemma TTSResponse_typed_accepts : accepts_typed_payloads TTSResponse_typed.
Proof.
  intros items r H. unfold TTSResponse_typed. rewrite H. reflexivity.
Qed.

(** C4, amended. Success is the answer to status 200 and to no other
    status. When the backend answers with status exactly 200 and a body that
    parses as JSON and that the TTSResponse constructor accepts, the dispatcher
    returns, after its one forwarding call, the object the constructor built
    from the parsed body, untouched; whenever the dispatcher returns a
    response, the status was 200 and the response is that object; a reply
    with any other status, another 2xx included, never gives a success. When
    the values of the payload already have the types and bounds the schema
    declares, the returned response carries every declared field (audio data,
    format, duration, sample rate, model, voice, language, processing time,
    text length, error, warnings) exactly as the backend sent it. *)
Theorem ok_response_is_returned
    (TTSResponse_init : pyval -> LibExc + TTSResponse) (py_repr : pyval -> string)
    (w : World) (settings : Settings) (model_name : string)
    (request : TTSRequest) (s : State)
    (endpoint : string) (response : Response) :
  endpoint_setting settings model_name = Some (Some endpoint) ->
  endpoint <> EmptyString ->
  generate_reply w endpoint model_name request s = inr response ->
  (forall response_data result,
     status_code response = 200%Z ->
     json response = inr response_data ->
     TTSResponse_init response_data = inr result ->
     generate_tts TTSResponse_init py_repr w settings model_name request s =
       (inr result, issue w (generate_call endpoint model_name request) s))
  /\
  (forall result s',
     generate_tts TTSResponse_init py_repr w settings model_name request s =
       (inr result, s') ->
     status_code response = 200%Z
     /\ exists response_data,
          json response = inr response_data
          /\ TTSResponse_init response_data = inr result)
  /\
  (status_code response <> 200%Z ->
   forall result s',
     generate_tts TTSResponse_init py_repr w settings model_name request s <>
       (inr result, s'))
  /\
  (accepts_typed_payloads TTSResponse_init ->
   forall items result,
     status_code response = 200%Z ->
     json response = inr (PyDict items) ->
     TTSResponse_fields items = Some result ->
     generate_tts TTSResponse_init py_repr w settings model_name request s =
       (inr result, issue w (generate_call endpoint model_name request) s)
     /\ payload_carried items result).
Proof.
  intros Hreg Hne Hreply.
  assert (Hok : forall response_data result,
             status_code response = 200%Z ->
             json response = inr response_data ->
             TTSResponse_init response_data = inr result ->
             generate_tts TTSResponse_init py_repr w settings model_name request s =
               (inr result, issue w (generate_call endpoint model_name request) s)).
  { intros response_data result Hstatus Hjson Hinit.
    rewrite (dispatch_configured _ _ _ _ _ _ _ Hreg Hne). unfold try_except.
    rewrite (dispatch_response _ _ _ _ _ _ _ _ _ Hreg Hne Hreply).
    rewrite Hstatus. cbn [Z.eqb Pos.eqb]. unfold bind, lib.
    rewrite Hjson, Hinit. reflexivity. }
  assert (Honly : forall result s',
             generate_tts TTSResponse_init py_repr w settings model_name request s =
               (inr result, s') ->
             status_code response = 200%Z
             /\ exists response_data,
                  json response = inr response_data
                  /\ TTSResponse_init response_data = inr result).
  { intros result s'.
    rewrite (dispatch_configured _ _ _ _ _ _ _ Hreg Hne). unfold try_except.
    rewrite (dispatch_response _ _ _ _ _ _ _ _ _ Hreg Hne Hreply).
    destruct (status_code response =? 200)%Z eqn:H200.
    - unfold bind, lib. destruct (json response) as [e | d]; [discriminate |].
      destruct (TTSResponse_init d) as [e | r] eqn:Hinit; [discriminate |].
      intros H. inversion H. subst r.
      split; [apply Z.eqb_eq; exact H200 |].
      exists d. split; [reflexivity | exact Hinit].
    - destruct (status_code response =? 422)%Z; [| discriminate].
      unfold bind, lib. destruct (json response) as [e | d]; [discriminate |].
      destruct (py_get d "detail" (PyStr "Validation error")); discriminate. }
  split; [exact Hok |]. split; [exact Honly |]. split.
  - intros Hnot result s' Hrun. apply Hnot. apply (Honly result s' Hrun).
  - intros Htyped items result Hstatus Hjson Hfields. split.
    + apply (Hok (PyDict items) result Hstatus Hjson). apply Htyped. exact Hfields.
    + apply TTSResponse_fields_carried. exact Hfields.
Qed.

(** C4, amended, on the example payload of models.py: answered with status
    200 it is returned with every field as sent; answered with status 201 it
    is not returned. *)
Lemma ok_response_is_returned_witness :
  generate_tts TTSResponse_typed repr_unused (world_of_post (inr ok_response))
    development_settings "kokkoro" hello_request fresh_state =
    (inr example_response,
     issue (world_of_post (inr ok_response))
       (generate_call "http://kokkoro:8001" "kokkoro" hello_request) fresh_state)
  /\ (exists items,
        example_payload = PyDict items /\ payload_carried items example_response)
  /\ status_code ok_response = 200%Z
  /\ generate_tts TTSResponse_typed repr_unused
       (world_of_post (inr created_response)) development_settings "kokkoro"
       hello_request fresh_state <>
       (inr example_response,
        issue (world_of_post (inr created_response))
          (generate_call "http://kokkoro:8001" "kokkoro" hello_request)
          fresh_state).
Proof.
  assert (Hne : "http://kokkoro:8001" <> EmptyString) by discriminate.
  destruct (ok_response_is_returned TTSResponse_typed repr_unused
              (world_of_post (inr ok_response)) development_settings
              "kokkoro" hello_request fresh_state "http://kokkoro:8001"
              ok_response eq_refl Hne eq_refl)
    as (Hok & Honly & _ & Htyped).
  destruct (ok_response_is_returned TTSResponse_typed repr_unused
              (world_of_post (inr created_response)) development_settings
              "kokkoro" hello_request fresh_state "http://kokkoro:8001"
              created_response eq_refl Hne eq_refl)
    as (_ & _ & Hother & _).
  destruct (Htyped TTSResponse_typed_accepts
              [ ("success", PyBool true);
                ("audio_data", PyStr "UklGRnoGAABXQVZFZm10IBAAAAABAAEA...");
                ("audio_format", PyStr "wav");
                ("duration", PyFloat 3.5%float);
                ("sample_rate", PyInt 22050);
                ("model_used", PyStr "kokkoro");
                ("voice_used", PyStr "default");
                ("language", PyStr "en");
                ("processing_time", PyFloat 1.25%float);
                ("text_length", PyInt 42);
                ("error", PyNone);
                ("warnings", PyNone) ]
              example_response eq_refl eq_refl eq_refl)
    as (Hrun & Hcarried).
  split; [exact Hrun |].
  split; [eexists; split; [reflexivity | exact Hcarried] |].
  split; [exact (proj1 (Honly _ _ Hrun)) |].
  apply Hother. cbn. lia.
Defined.

(** The constructor keeps the declared fields only: a key the schema does
    not declare changes nothing in what the dispatcher returns. *)
Example undeclared_keys_are_dropped :
  TTSResponse_typed
    (PyDict (("trace_id", PyStr "abc123") :: match example_payload with
                                             | PyDict items => items
                                             | _ => []
                                             end)) =
    TTSResponse_typed example_payload.
Proof. reflexivity. Qed.

(** On typed payloads the constructor copies the required fields as the
    backend sent them. *)
Lemma TTSResponse_typed_required (items : dict pyval) (r : TTSResponse) :
  TTSResponse_typed (PyDict items) = inr r ->
  dict_get items "success" = Some (PyBool (success r))
  /\ dict_get items "audio_format" = Some (PyStr (AudioFormat_value (audio_format r)))
  /\ dict_get items "sample_rate" = Some (PyInt (sample_rate r))
  /\ dict_get items "model_used" = Some (PyStr (model_used r))
  /\ dict_get items "text_length" = Some (PyInt (text_length r)).
Proof.
  unfold TTSResponse_typed.
  destruct (TTSResponse_fields items) as [r' |] eqn:H; [| discriminate].
  intros Hr. inversion Hr. subst r'. clear Hr.
  unfold TTSResponse_fields in H.
  apply obind_some in H. destruct H as (b & Hsuccess & H).
  apply obind_some in H. destruct H as (ad & _ & H).
  apply obind_some in H. destruct H as (af & Hformat & H).
  apply obind_some in H. destruct H as (du & _ & H).
  apply obind_some in H. destruct H as (sr & Hrate & H).
  apply obind_some in H. destruct H as (mu & Hmodel & H).
  apply obind_some in H. destruct H as (vu & _ & H).
  apply obind_some in H. destruct H as (la & _ & H).
  apply obind_some in H. destruct H as (pt & _ & H).
  apply obind_some in H. destruct H as (tl & Hlength & H).
  apply obind_some in H. destruct H as (er & _ & H).
  apply obind_some in H. destruct H as (wa & _ & H).
  match type of H with (if ?c then _ else _) = _ => destruct c end;
    [| discriminate].
  inversion H. subst r. clear H. cbn.
  apply required_some in Hsuccess. destruct Hsuccess as (v1 & -> & H1).
  apply obind_some in Hformat. destruct Hformat as (fs & Hformat & Hf).
  apply required_some in Hformat. destruct Hformat as (v2 & -> & H2).
  apply required_some in Hrate. destruct Hrate as (v3 & -> & H3).
  apply required_some in Hmodel. destruct Hmodel as (v4 & -> & H4).
  apply required_some in Hlength. destruct Hlength as (v5 & -> & H5).
  destruct v1; try discriminate H1. injection H1 as ->.
  destruct v2; try discriminate H2. injection H2 as ->.
  destruct v3; try discriminate H3. injection H3 as ->.
  destruct v4; try discriminate H4. injection H4 as ->.
  destruct v5; try discriminate H5. injection H5 as ->.
  apply AudioFormat_of_value_inv in Hf. subst.
  repeat split.
Qed.

(** C5 as stated fails: the backend answers 422 with a body that is not
    JSON; the dispatcher raises 500 (Internal), not 422 (ValidationError). *)
Lemma garbled_422_is_internal :
  generate_reply (world_of_post (inr garbled_422_response)) "http://kokkoro:8001"
    "kokkoro" hello_request fresh_state = inr garbled_422_response
  /\ status_code garbled_422_response = 422%Z
  /\ fst (generate_tts TTSResponse_typed repr_unused
            (world_of_post (inr garbled_422_response))
            development_settings "kokkoro" hello_request fresh_state) =
       inl (HTTPException 500
              "Internal server error: Expecting value: line 1 column 1 (char 0)")
  /\ (forall detail,
        fst (generate_tts TTSResponse_typed repr_unused
               (world_of_post (inr garbled_422_response))
               development_settings "kokkoro" hello_request fresh_state) <>
          inl (HTTPException HTTP_422_UNPROCESSABLE_ENTITY detail)).
Proof.
  split; [reflexivity |]. split; [reflexivity |]. split; [reflexivity |].
  intros detail. cbv [HTTP_422_UNPROCESSABLE_ENTITY]. discriminate.
Qed.

(** C5, amended. When the backend answers 422 with a body that parses to a
    JSON object, the dispatcher raises 422 (ValidationError) whose message is
    "Model validation error: " followed by the object's `detail` as an
    f-string prints it ("Validation error" when the object has no `detail`);
    a `detail` that is a string appears verbatim. When the body does not
    parse, or parses to something that is not an object, the dispatcher
    raises 500 (Internal). *)
Theorem validation_error_detail
    (TTSResponse_init : pyval -> LibExc + TTSResponse) (py_repr : pyval -> string)
    (w : World) (settings : Settings) (model_name : string)
    (request : TTSRequest) (s : State)
    (endpoint : string) (response : Response) :
  endpoint_setting settings model_name = Some (Some endpoint) ->
  endpoint <> EmptyString ->
  generate_reply w endpoint model_name request s = inr response ->
  status_code response = 422%Z ->
  let sent := issue w (generate_call endpoint model_name request) s in
  (forall items,
     json response = inr (PyDict items) ->
     generate_tts TTSResponse_init py_repr w settings model_name request s =
       (inl (HTTPException HTTP_422_UNPROCESSABLE_ENTITY
               ("Model validation error: "
                ++ py_str py_repr
                     (match dict_get items "detail" with
                      | Some v => v
                      | None => PyStr "Validation error"
                      end))), sent))
  /\
  (forall items message,
     json response = inr (PyDict items) ->
     dict_get items "detail" = Some (PyStr message) ->
     generate_tts TTSResponse_init py_repr w settings model_name request s =
       (inl (HTTPException HTTP_422_UNPROCESSABLE_ENTITY
               ("Model validation error: " ++ message)), sent))
  /\
  (forall e,
     json response = inl e ->
     generate_tts TTSResponse_init py_repr w settings model_name request s =
       (inl (HTTPException HTTP_500_INTERNAL_SERVER_ERROR
               ("Internal server error: " ++ str_exc e)), sent))
  /\
  (forall v,
     json response = inr v ->
     (forall items, v <> PyDict items) ->
     generate_tts TTSResponse_init py_repr w settings model_name request s =
       (inl (HTTPException HTTP_500_INTERNAL_SERVER_ERROR
               ("Internal server error: '" ++ type_name v
                ++ "' object has no attribute 'get'")), sent)).
Proof.
  intros Hreg Hne Hreply Hstatus sent.
  assert (Hobject : forall items,
             json response = inr (PyDict items) ->
             generate_tts TTSResponse_init py_repr w settings model_name request s =
               (inl (HTTPException HTTP_422_UNPROCESSABLE_ENTITY
                       ("Model validation error: "
                        ++ py_str py_repr
                             (match dict_get items "detail" with
                              | Some v => v
                              | None => PyStr "Validation error"
                              end))), sent)).
  { intros items Hjson.
    rewrite (dispatch_configured _ _ _ _ _ _ _ Hreg Hne). unfold try_except.
    rewrite (dispatch_response _ _ _ _ _ _ _ _ _ Hreg Hne Hreply).
    rewrite Hstatus. cbn [Z.eqb Pos.eqb]. unfold bind, lib.
    rewrite Hjson. reflexivity. }
  split; [exact Hobject |]. split; [| split].
  - intros items message Hjson Hdetail.
    rewrite (Hobject items Hjson), Hdetail. reflexivity.
  - intros e Hjson.
    apply (dispatch_unexpected _ _ _ _ _ _ _ _ _ _ Hreg Hne).
    rewrite (dispatch_response _ _ _ _ _ _ _ _ _ Hreg Hne Hreply).
    rewrite Hstatus. cbn [Z.eqb Pos.eqb]. unfold bind, lib.
    rewrite Hjson. reflexivity.
  - intros v Hjson Hnot.
    replace ("Internal server error: '" ++ type_name v
             ++ "' object has no attribute 'get'")
      with ("Internal server error: "
            ++ str_exc (OtherException
                          ("'" ++ type_name v ++ "' object has no attribute 'get'")))
      by reflexivity.
    apply (dispatch_unexpected _ _ _ _ _ _ _ _ _ _ Hreg Hne).
    rewrite (dispatch_response _ _ _ _ _ _ _ _ _ Hreg Hne Hreply).
    rewrite Hstatus. cbn [Z.eqb Pos.eqb]. unfold bind, lib.
    rewrite Hjson.
    destruct v; try reflexivity.
    exfalso. exact (Hnot items eq_refl).
Qed.

Lemma validation_error_detail_witness :
  generate_tts TTSResponse_typed repr_unused (world_of_post (inr detailed_422_response))
    development_settings "kokkoro" hello_request fresh_state =
    (inl (HTTPException 422 "Model validation error: Text too long"),
     issue (world_of_post (inr detailed_422_response))
       (generate_call "http://kokkoro:8001" "kokkoro" hello_request) fresh_state).
Proof.
  apply (proj1 (proj2 (validation_error_detail TTSResponse_typed repr_unused
           (world_of_post (inr detailed_422_response)) development_settings
           "kokkoro" hello_request fresh_state "http://kokkoro:8001"
           detailed_422_response eq_refl ltac:(discriminate) eq_refl eq_refl))
           [("detail", PyStr "Text too long")] "Text too long").
  - reflexivity.
  - reflexivity.
Defined.

(** ** The streaming negotiator *)

Section NegotiatorFacts.

Variable TTSResponse_init : pyval -> LibExc + TTSResponse.
Variable py_repr : pyval -> string.
Variable w : World.
Variable settings : Settings.
Variable model_name : string.
Variable request : TTSRequest.

Local Abbreviation dispatch :=
  (generate_tts TTSResponse_init py_repr w settings model_name request).
Local Abbreviation negotiate :=
  (generate_tts_stream TTSResponse_init py_repr w settings model_name request).

(** After a forwarding attempt the state is the old one with one more call. *)
Lemma dispatch_state (endpoint : string) (s : State) :
  endpoint_setting settings model_name = Some (Some endpoint) ->
  endpoint <> EmptyString ->
  snd (dispatch s) = issue w (generate_call endpoint model_name request) s.
Proof.
  intros Hreg Hne. rewrite (dispatch_configured _ _ _ _ _ _ _ Hreg Hne).
  unfold try_except.
  pose proof (classify_state TTSResponse_init py_repr w model_name request endpoint s)
    as Hs.
  destruct (forward_and_classify _ _ _ _ _ s) as [[[code detail | e] | r] s1];
    simpl in Hs |- *; exact Hs.
Qed.

(** The fallback hands the request to the dispatcher and keeps its outcome. *)
Lemma negotiate_fallback (endpoint : string) (s : State) :
  endpoint_setting settings model_name = Some (Some endpoint) ->
  endpoint <> EmptyString ->
  stream_not_found (stream_reply w endpoint model_name request s) = true ->
  negotiate s =
    as_dispatched (dispatch (issue w (stream_call endpoint model_name request) s)).
Proof.
  intros Hreg Hne H404.
  destruct (endpoint_setting_env _ _ _ Hreg) as (env_var & Henv & Hget).
  unfold generate_tts_stream. rewrite Henv, Hget.
  rewrite (configured_endpoint_some _ Hne).
  unfold stream_not_found, stream_reply in H404.
  unfold try_except, bind, await_stream, stream_call.
  destruct (client_stream w (calls s) _ _ _) as [[m | m | m response | m] | response];
    try discriminate H404.
  - (* an HTTPStatusError whose response is a 404 *)
    unfold raise at 1. rewrite H404.
    destruct (generate_tts _ _ _ _ _ _ _) as [[e | r] s1]; reflexivity.
  - (* a response with status 404 *)
    rewrite H404.
    destruct (generate_tts _ _ _ _ _ _ _) as [[e | r] s1] eqn:Hrun;
      [| reflexivity].
    destruct (dispatch_raises_http _ _ _ _ _ _ _ _ _ Hrun) as (code & detail & ->).
    reflexivity.
Qed.

(** What the dispatcher answers depends on the state only through the
    backend's reply. *)
Lemma dispatch_outcome_steady (s1 s2 : State) :
  post_ignores_history w -> fst (dispatch s1) = fst (dispatch s2).
Proof.
  intros Hsteady. unfold generate_tts.
  destruct (dict_get MODEL_ENDPOINTS model_name) as [env_var |]; [| reflexivity].
  destruct (configured_endpoint _) as [endpoint |]; [| reflexivity].
  unfold try_except, forward_and_classify, bind.
  rewrite !forward_request_reply. unfold generate_reply.
  rewrite (Hsteady (calls s1) (calls s2)).
  destruct (client_post w (calls s2) _ _ _) as [[m | m | m r | m] | response];
    try reflexivity.
  destruct (status_code response =? 200)%Z.
  - unfold lib. destruct (json response) as [e | d]; [reflexivity |].
    destruct (TTSResponse_init d); reflexivity.
  - destruct (status_code response =? 422)%Z; [| reflexivity].
    unfold lib. destruct (json response) as [e | d]; [reflexivity |].
    destruct (py_get d "detail" (PyStr "Validation error")); reflexivity.
Qed.

End NegotiatorFacts.

(** C2. When the streaming path of the backend answers 404, the negotiator
    hands the same model name and request to the dispatcher and its outcome
    is the dispatcher's outcome, exceptions included: the run is the stream
    attempt followed by the dispatcher's run; the payload forwarded to
    `/generate` is the payload the stream attempt carried; and against a
    backend whose answers do not depend on earlier calls the outcome is the
    one a direct call of the dispatcher gives. *)
Theorem stream_fallback_is_dispatch
    (TTSResponse_init : pyval -> LibExc + TTSResponse) (py_repr : pyval -> string)
    (w : World) (settings : Settings) (model_name : string)
    (request : TTSRequest) (s : State) (endpoint : string) :
  endpoint_setting settings model_name = Some (Some endpoint) ->
  endpoint <> EmptyString ->
  stream_not_found (stream_reply w endpoint model_name request s) = true ->
  generate_tts_stream TTSResponse_init py_repr w settings model_name request s =
    as_dispatched
      (generate_tts TTSResponse_init py_repr w settings model_name request
         (issue w (stream_call endpoint model_name request) s))
  /\
  calls (snd (generate_tts_stream TTSResponse_init py_repr w settings model_name
                request s)) =
    (calls s ++ [ STREAM (endpoint ++ "/generate/stream")
                    (prepare_request_data request model_name) stream_timeout;
                  POST (endpoint ++ "/generate")
                    (prepare_request_data request model_name) forward_timeout ])%list
  /\
  (post_ignores_history w ->
   fst (generate_tts_stream TTSResponse_init py_repr w settings model_name request s) =
     fst (as_dispatched
            (generate_tts TTSResponse_init py_repr w settings model_name request s))).
Proof.
  intros Hreg Hne H404.
  pose proof (negotiate_fallback TTSResponse_init py_repr w settings model_name
                request endpoint s Hreg Hne H404) as Hrun.
  split; [exact Hrun |]. split.
  - rewrite Hrun.
    pose proof (dispatch_state TTSResponse_init py_repr w settings model_name
                  request endpoint
                  (issue w (stream_call endpoint model_name request) s) Hreg Hne)
      as Hstate.
    destruct (generate_tts _ _ _ _ _ _ _) as [[e | r] s1];
      simpl in Hstate |- *; subst s1; simpl; rewrite <- app_assoc; reflexivity.
  - intros Hsteady. rewrite Hrun.
    pose proof (dispatch_outcome_steady TTSResponse_init py_repr w settings
                  model_name request
                  (issue w (stream_call endpoint model_name request) s) s Hsteady)
      as Hsame.
    destruct (generate_tts _ _ _ _ _ _ (issue _ _ _)) as [[e1 | r1] s1];
      destruct (generate_tts _ _ _ _ _ _ s) as [[e2 | r2] s2];
      simpl in Hsame |- *; congruence.
Qed.

(** C2, on the scenario of the specification: text "Hello", model kokkoro,
    404 on the streaming path, 200 on the plain one. *)
Lemma stream_fallback_is_dispatch_witness :
  generate_tts_stream TTSResponse_typed repr_unused fallback_world
    development_settings "kokkoro" hello_request fresh_state =
    as_dispatched
      (generate_tts TTSResponse_typed repr_unused fallback_world
         development_settings "kokkoro" hello_request
         (issue fallback_world
            (stream_call "http://kokkoro:8001" "kokkoro" hello_request) fresh_state))
  /\
  fst (generate_tts_stream TTSResponse_typed repr_unused fallback_world
         development_settings "kokkoro" hello_request fresh_state) =
    fst (as_dispatched
           (generate_tts TTSResponse_typed repr_unused fallback_world
              development_settings "kokkoro" hello_request fresh_state)).
Proof.
  pose proof (stream_fallback_is_dispatch TTSResponse_typed repr_unused
                fallback_world development_settings "kokkoro" hello_request
                fresh_state "http://kokkoro:8001" eq_refl ltac:(discriminate) eq_refl)
    as (Hrun & _ & Hsteady).
  split.
  - exact Hrun.
  - apply Hsteady. intros h h' url body timeout. reflexivity.
Defined.

(** The scenario evaluated, with a plain path that answers the example
    payload of models.py: the negotiator returns the response built from it. *)
Example stream_fallback_scenario :
  fst (generate_tts_stream TTSResponse_typed repr_unused fallback_world
         development_settings "kokkoro" hello_request fresh_state) =
    inr (Dispatched example_response).
Proof. reflexivity. Qed.

(** ** The prober and the aggregator *)

Lemma issue_all_calls (w : World) (cs : list Call) (s : State) :
  calls (issue_all w cs s) = (calls s ++ cs)%list.
Proof.
  unfold issue_all. revert s.
  induction cs as [| c cs IH]; intros s; cbn [fold_left].
  - symmetry. apply app_nil_r.
  - rewrite IH. cbn [issue calls]. rewrite <- app_assoc. reflexivity.
Qed.

Lemma issue_all_awaited (w : World) (cs : list Call) (s : State) :
  awaited (issue_all w cs s) = awaited s + sequential_latency w (calls s) cs.
Proof.
  unfold issue_all. revert s.
  induction cs as [| c cs IH]; intros s; cbn [fold_left sequential_latency].
  - lia.
  - rewrite IH. cbn [issue calls awaited]. lia.
Qed.

Lemma issue_all_request_counter (w : World) (cs : list Call) (s : State) :
  request_counter (issue_all w cs s) = request_counter s.
Proof.
  unfold issue_all. revert s.
  induction cs as [| c cs IH]; intros s; cbn [fold_left]; [reflexivity |].
  rewrite IH. reflexivity.
Qed.

Lemma issue_all_app (w : World) (cs cs' : list Call) (s : State) :
  issue_all w (cs ++ cs') s = issue_all w cs' (issue_all w cs s).
Proof. unfold issue_all. apply fold_left_app. Qed.

Lemma slowest_le_sequential (w : World) (cs : list Call) (h : list Call) :
  slowest_latency w h cs <= sequential_latency w h cs.
Proof.
  revert h. induction cs as [| c cs IH]; intros h; cbn [slowest_latency sequential_latency].
  - lia.
  - specialize (IH (h ++ [c])%list). lia.
Qed.

(** One probe: a single GET, and a boolean whatever the reply. *)
Lemma check_model_health_run (w : World) (endpoint : string) (timeout : float)
    (s : State) :
  check_model_health w endpoint timeout s =
    (inr (match client_get w (calls s) (endpoint ++ "/health") timeout with
          | inr response => (status_code response =? 200)%Z
          | inl _ => false
          end),
     issue w (GET (endpoint ++ "/health") timeout) s).
Proof.
  unfold check_model_health, try_except, bind, await_get.
  destruct (client_get w (calls s) _ _); reflexivity.
Qed.

Lemma configured_endpoints_probes (settings : Settings) :
  map probe_call (configured_endpoints settings) =
    (setting_probes (kokkoro_endpoint settings)
     ++ setting_probes (chatterbox_endpoint settings))%list.
Proof.
  unfold configured_endpoints, setting_probes. cbn [flat_map].
  destruct (configured_endpoint (kokkoro_endpoint settings));
    destruct (configured_endpoint (chatterbox_endpoint settings)); reflexivity.
Qed.

(** One aggregation run: the two entries in order, each probed only when its
    setting is configured, the second after the first. *)
Lemma get_models_status_run (w : World) (settings : Settings) (s : State) :
  get_models_status w settings s =
    (inr [ ("kokkoro", setting_status w (calls s) (kokkoro_endpoint settings));
           ("chatterbox",
            setting_status w
              (calls s ++ setting_probes (kokkoro_endpoint settings))%list
              (chatterbox_endpoint settings)) ],
     issue_all w (map probe_call (configured_endpoints settings)) s).
Proof.
  rewrite configured_endpoints_probes.
  unfold get_models_status, setting_status, setting_probes.
  destruct (configured_endpoint (kokkoro_endpoint settings)) as [e1 |];
    destruct (configured_endpoint (chatterbox_endpoint settings)) as [e2 |];
    unfold bind, ret; cbv beta iota;
    repeat (rewrite check_model_health_run; cbv beta iota);
    cbn [app]; rewrite ?app_nil_r; reflexivity.
Qed.

(** The health endpoints count themselves: each call of `GET /health/` or
    `GET /health/quick` adds one to the counter. *)
Lemma health_endpoints_count (w : World) (settings : Settings) (s : State) :
  request_counter (snd (health_check w settings s)) = (request_counter s + 1)%Z
  /\ request_counter (snd (quick_health_check w s)) = (request_counter s + 1)%Z.
Proof.
  split; [| reflexivity].
  unfold health_check, bind at 1, increment_request_count.
  unfold bind at 1.
  destruct (get_system_stats w _) as [[e | stats] s1] eqn:Hstats.
  - unfold get_system_stats, try_except, bind, read_psutil, ret in Hstats.
    destruct (psutil_percent w _); inversion Hstats.
  - assert (Hs1 : request_counter s1 = (request_counter s + 1)%Z).
    { unfold get_system_stats, try_except, bind, read_psutil, ret in Hstats.
      destruct (psutil_percent w _); inversion Hstats; reflexivity. }
    unfold bind at 1. rewrite get_models_status_run.
    unfold bind, now_isoformat, get_uptime, read_request_counter, HealthResponse_init.
    match goal with |- context [if ?c then _ else _] => destruct c end;
      cbn [snd ret raise]; unfold ret, raise; cbn [snd];
      rewrite issue_all_request_counter; exact Hs1.
Qed.

(** C3, on the code. The dispatcher never calls increment_request_count:
    whatever the outcome of a dispatch, request_counter is what it was, and
    so it is after any number of dispatches. In the scenario of the
    specification (one unknown model, one unconfigured model, one success,
    from a fresh counter) the counter ends at 0, where the claim expects 3.
    Only the health endpoints count themselves. *)
Theorem dispatch_leaves_request_counter :
  (forall TTSResponse_init py_repr w settings model_name request s,
     request_counter
       (snd (generate_tts TTSResponse_init py_repr w settings model_name request s)) =
       request_counter s)
  /\
  (forall TTSResponse_init py_repr w settings requests s,
     request_counter
       (serve_dispatches TTSResponse_init py_repr w settings requests s) =
       request_counter s)
  /\
  request_counter
    (serve_dispatches TTSResponse_typed repr_unused (world_of_post (inr ok_response))
       chatterbox_only_settings three_requests fresh_state) = 0%Z.
Proof.
  assert (Hall : forall TTSResponse_init py_repr w settings requests s,
             request_counter
               (serve_dispatches TTSResponse_init py_repr w settings requests s) =
               request_counter s).
  { intros TTSResponse_init py_repr w settings requests.
    unfold serve_dispatches.
    induction requests as [| req requests IH]; intros s.
    - reflexivity.
    - cbn [fold_left]. rewrite IH. apply dispatch_request_counter. }
  split; [| split].
  - intros. apply dispatch_request_counter.
  - exact Hall.
  - rewrite Hall. reflexivity.
Qed.

(** The three dispatches of the scenario end as the claim describes them:
    two failures and one success. *)
Example three_requests_outcomes :
  map (fun req =>
         fst (generate_tts TTSResponse_typed repr_unused
                (world_of_post (inr ok_response)) chatterbox_only_settings
                (fst req) (snd req) fresh_state))
      three_requests =
    [ inl (HTTPException 400
             "Unknown model: unknownmodel. Available models: ['kokkoro', 'chatterbox']");
      inl (HTTPException 503
             "Model kokkoro is not configured. Please set KOKKORO_ENDPOINT environment variable.");
      inr example_response ].
Proof. reflexivity. Qed.

(** C6. For every endpoint and timeout the health probe returns a boolean
    and never raises: it issues one GET and answers true exactly when a
    response with status 200 came back. An exception of the call (a timeout,
    a network error, anything else) gives false, and so does every response
    whose status is not 2xx. *)
Theorem probe_is_total (w : World) (endpoint : string) (timeout : float) (s : State) :
  exists is_healthy : bool,
    check_model_health w endpoint timeout s =
      (inr is_healthy, issue w (GET (endpoint ++ "/health") timeout) s)
    /\ (forall e,
          client_get w (calls s) (endpoint ++ "/health") timeout = inl e ->
          is_healthy = false)
    /\ (forall response,
          client_get w (calls s) (endpoint ++ "/health") timeout = inr response ->
          ~ (200 <= status_code response <= 299)%Z ->
          is_healthy = false)
    /\ (is_healthy = true <->
        exists response,
          client_get w (calls s) (endpoint ++ "/health") timeout = inr response
          /\ status_code response = 200%Z).
Proof.
  rewrite check_model_health_run.
  destruct (client_get w (calls s) (endpoint ++ "/health") timeout)
    as [e | response] eqn:Hreply.
  - exists false. split; [reflexivity |]. split; [reflexivity |].
    split; [intros response H; discriminate H |].
    split; [discriminate |]. intros (response & H & _). discriminate H.
  - exists (status_code response =? 200)%Z. split; [reflexivity |].
    split; [intros e H; discriminate H |]. split.
    + intros response' H Hnot. inversion H. subst response'.
      apply Z.eqb_neq. lia.
    + rewrite Z.eqb_eq. split.
      * intros H. exists response. split; [reflexivity | exact H].
      * intros (response' & H & H200). inversion H. subst response'. exact H200.
Qed.

(** C6, on a backend that answers 200 and on one that cannot be reached. *)
Lemma probe_is_total_witness :
  check_model_health slow_probe_world "http://kokkoro:8001" probe_timeout fresh_state =
    (inr true,
     issue slow_probe_world (GET "http://kokkoro:8001/health" probe_timeout) fresh_state)
  /\
  check_model_health (world_of_post (inr ok_response)) "http://kokkoro:8001"
    probe_timeout fresh_state =
    (inr false,
     issue (world_of_post (inr ok_response))
       (GET "http://kokkoro:8001/health" probe_timeout) fresh_state).
Proof.
  split.
  - destruct (probe_is_total slow_probe_world "http://kokkoro:8001" probe_timeout
                fresh_state) as (b & Hrun & _ & _ & Htrue).
    assert (Hb : b = true).
    { apply Htrue. exists healthy_response. split; reflexivity. }
    rewrite Hb in Hrun. exact Hrun.
  - destruct (probe_is_total (world_of_post (inr ok_response)) "http://kokkoro:8001"
                probe_timeout fresh_state) as (b & Hrun & Hexc & _).
    assert (Hb : b = false).
    { apply (Hexc (RequestError "All connection attempts failed")). reflexivity. }
    rewrite Hb in Hrun. exact Hrun.
Defined.

Lemma any_true_iff (xs : list bool) : any xs = true <-> In true xs.
Proof.
  unfold any. rewrite existsb_exists. split.
  - intros (b & Hin & Hb). subst b. exact Hin.
  - intros Hin. exists true. split; [exact Hin | reflexivity].
Qed.

Lemma dict_values_true_iff (d : dict bool) :
  In true (dict_values d) <-> exists name, In (name, true) d.
Proof.
  unfold dict_values. rewrite in_map_iff. split.
  - intros ([name b] & Hb & Hin). cbn [snd] in Hb. subst b. exists name. exact Hin.
  - intros (name & Hin). exists (name, true). split; [reflexivity | exact Hin].
Qed.

Lemma overall_status_healthy (models_status : dict bool) :
  overall_status models_status = "healthy" <->
  exists name, In (name, true) models_status.
Proof.
  rewrite <- dict_values_true_iff, <- any_true_iff. unfold overall_status.
  destruct (any (dict_values models_status)); split;
    try reflexivity; discriminate.
Qed.

Lemma overall_status_degraded (models_status : dict bool) :
  overall_status models_status = "degraded" <->
  ~ exists name, In (name, true) models_status.
Proof.
  rewrite <- dict_values_true_iff, <- any_true_iff. unfold overall_status.
  destruct (any (dict_values models_status)); split;
    try reflexivity; try discriminate; intros H; exfalso; apply H; reflexivity.
Qed.

(** What `GET /health/` returns when it returns. *)
Lemma health_check_response (w : World) (settings : Settings) (s : State)
    (h : HealthResponse) (s' : State) :
  health_check w settings s = (inr h, s') ->
  exists models_status s0,
    get_models_status w settings s0 = (inr models_status, s')
    /\ models h = models_status
    /\ status h = overall_status models_status
    /\ request_count h = Some (request_counter s + 1)%Z
    /\ request_counter s' = (request_counter s + 1)%Z.
Proof.
  unfold health_check, bind at 1, increment_request_count.
  unfold bind at 1.
  destruct (get_system_stats w _) as [[e | stats] s1] eqn:Hstats; [discriminate |].
  assert (Hs1 : s1 = {| request_counter := request_counter s + 1;
                        calls := calls s; awaited := awaited s |}).
  { unfold get_system_stats, try_except, bind, read_psutil, ret in Hstats.
    destruct (psutil_percent w _); inversion Hstats; reflexivity. }
  unfold bind at 1. rewrite get_models_status_run.
  unfold bind, now_isoformat, get_uptime, read_request_counter, HealthResponse_init.
  cbn [uptime request_count memory_usage cpu_usage].
  match goal with |- context [if ?c then _ else _] => destruct c end;
    unfold ret, raise; intros H; inversion H; subst h s'; clear H.
  exists [ ("kokkoro", setting_status w (calls s1) (kokkoro_endpoint settings));
           ("chatterbox",
            setting_status w
              (calls s1 ++ setting_probes (kokkoro_endpoint settings))%list
              (chatterbox_endpoint settings)) ], s1.
  split; [apply get_models_status_run |].
  cbn [models status request_count].
  rewrite issue_all_request_counter. subst s1. cbn [request_counter].
  repeat split.
Qed.

(** C7. The overall status is "healthy" exactly when at least one backend is
    recorded healthy and "degraded" otherwise: for every table of per-backend
    results, empty, singleton or larger, and so for the table every response
    of `GET /health/` carries. *)
Theorem overall_status_rule :
  (forall models_status : dict bool,
     (overall_status models_status = "healthy" <->
      exists name, In (name, true) models_status)
     /\ (overall_status models_status = "degraded" <->
         ~ exists name, In (name, true) models_status))
  /\
  (forall w settings s h s',
     health_check w settings s = (inr h, s') ->
     (status h = "healthy" <-> exists name, In (name, true) (models h))
     /\ (status h = "degraded" <-> ~ exists name, In (name, true) (models h))).
Proof.
  split.
  - intros models_status. split.
    + apply overall_status_healthy.
    + apply overall_status_degraded.
  - intros w settings s h s' Hrun.
    destruct (health_check_response w settings s h s' Hrun)
      as (models_status & s0 & _ & Hmodels & Hstatus & _).
    rewrite Hstatus, Hmodels. split.
    + apply overall_status_healthy.
    + apply overall_status_degraded.
Qed.

(** C7, on runs of `GET /health/`: no backend configured; both configured
    and answering 200; and on tables of zero, one and three backends. *)
Lemma overall_status_rule_witness :
  (exists h s',
     health_check fallback_world default_settings fresh_state = (inr h, s')
     /\ status h = "degraded"
     /\ ~ exists name, In (name, true) (models h))
  /\
  (exists h s',
     health_check fallback_world development_settings fresh_state = (inr h, s')
     /\ status h = "healthy"
     /\ exists name, In (name, true) (models h))
  /\ overall_status [] = "degraded"
  /\ overall_status [("kokkoro", true)] = "healthy"
  /\ overall_status [("a", false); ("b", false); ("c", true)] = "healthy".
Proof.
  split; [| split; [| split; [| split]]].
  - eexists. eexists. split; [reflexivity |].
    pose proof (proj2 overall_status_rule fallback_world default_settings
                  fresh_state _ _ eq_refl) as [_ Hdegraded].
    split; [reflexivity |]. apply Hdegraded. reflexivity.
  - eexists. eexists. split; [reflexivity |].
    pose proof (proj2 overall_status_rule fallback_world development_settings
                  fresh_state _ _ eq_refl) as [Hhealthy _].
    split; [reflexivity |]. apply Hhealthy. reflexivity.
  - reflexivity.
  - reflexivity.
  - reflexivity.
Defined.

Lemma setting_status_configured (w : World) (h : list Call) (setting : option string) :
  setting_status w h setting = true -> truthy setting = true.
Proof.
  unfold setting_status.
  destruct (configured_endpoint setting) as [endpoint |] eqn:Hc; [| discriminate].
  intros _. apply (configured_endpoint_inv _ _ Hc).
Qed.

Lemma setting_status_unconfigured (w : World) (h : list Call) (setting : option string) :
  truthy setting = false ->
  setting_status w h setting = false /\ setting_probes setting = [].
Proof.
  intros Hfalsy. unfold setting_status, setting_probes.
  rewrite (configured_endpoint_none _ Hfalsy). split; reflexivity.
Qed.

Lemma endpoint_setting_cases (settings : Settings) (name : string)
    (setting : option string) :
  endpoint_setting settings name = Some setting ->
  (name = "kokkoro" /\ setting = kokkoro_endpoint settings)
  \/ (name = "chatterbox" /\ setting = chatterbox_endpoint settings).
Proof.
  rewrite endpoint_setting_spec.
  destruct (String.eqb_spec "kokkoro" name) as [<- |].
  - intros H. inversion H. left. split; reflexivity.
  - destruct (String.eqb_spec "chatterbox" name) as [<- |]; [| discriminate].
    intros H. inversion H. right. split; reflexivity.
Qed.

(** The detailed view of one aggregation run. *)
Lemma models_health_check_run (w : World) (settings : Settings) (s : State) :
  exists r : ModelsHealth,
    models_health_check w settings s =
      (inr r, issue_all w (map probe_call (configured_endpoints settings)) s)
    /\ detailed_models r =
         [ ("kokkoro",
            {| healthy := setting_status w (calls s) (kokkoro_endpoint settings);
               endpoint := kokkoro_endpoint settings;
               configured := truthy (kokkoro_endpoint settings) |});
           ("chatterbox",
            {| healthy :=
                 setting_status w
                   (calls s ++ setting_probes (kokkoro_endpoint settings))%list
                   (chatterbox_endpoint settings);
               endpoint := chatterbox_endpoint settings;
               configured := truthy (chatterbox_endpoint settings) |}) ].
Proof.
  unfold models_health_check, bind at 1. rewrite get_models_status_run.
  unfold bind, now_isoformat, ret. eexists. split; reflexivity.
Qed.

(** C8. Every health record says configured whenever it says healthy, and
    an entry whose endpoint setting is absent or empty is recorded
    healthy=false, configured=false without a probe: in the detailed view
    (`GET /health/models`), in the per-model query
    (`GET /health/models/{name}`) and in the table of the summary
    (`GET /health/`). One run issues exactly one probe per configured
    endpoint and none for the others. *)
Theorem health_records_respect_configuration
    (w : World) (settings : Settings) (s : State) :
  (exists r s',
     models_health_check w settings s = (inr r, s')
     /\ calls s' =
          (calls s ++ setting_probes (kokkoro_endpoint settings)
                   ++ setting_probes (chatterbox_endpoint settings))%list
     /\ (forall name d,
           In (name, d) (detailed_models r) ->
           healthy d = true -> configured d = true)
     /\ (forall name setting,
           endpoint_setting settings name = Some setting ->
           truthy setting = false ->
           dict_get (detailed_models r) name =
             Some {| healthy := false; endpoint := setting; configured := false |}
           /\ setting_probes setting = []))
  /\
  (forall name setting,
     endpoint_setting settings name = Some setting ->
     exists resp s' is_healthy is_configured,
       single_model_health_check w settings name s = (inr resp, s')
       /\ dict_get (body resp) "healthy" = Some (PyBool is_healthy)
       /\ dict_get (body resp) "configured" = Some (PyBool is_configured)
       /\ is_configured = truthy setting
       /\ (is_healthy = true -> is_configured = true)
       /\ (truthy setting = false -> is_healthy = false /\ s' = s))
  /\
  (exists models_status s',
     get_models_status w settings s = (inr models_status, s')
     /\ calls s' =
          (calls s ++ setting_probes (kokkoro_endpoint settings)
                   ++ setting_probes (chatterbox_endpoint settings))%list
     /\ (forall name,
           In (name, true) models_status ->
           exists endpoint,
             endpoint_setting settings name = Some (Some endpoint)
             /\ endpoint <> EmptyString)
     /\ (forall name setting,
           endpoint_setting settings name = Some setting ->
           truthy setting = false ->
           dict_get models_status name = Some false)).
Proof.
  split; [| split].
  - destruct (models_health_check_run w settings s) as (r & Hrun & Hdetail).
    exists r. eexists. split; [exact Hrun |]. split; [| split].
    + rewrite issue_all_calls, configured_endpoints_probes. reflexivity.
    + intros name d Hin. rewrite Hdetail in Hin.
      destruct Hin as [H | [H | []]]; inversion H; subst d; cbn [healthy configured];
        apply setting_status_configured.
    + intros name setting Hreg Hfalsy. rewrite Hdetail.
      destruct (endpoint_setting_cases _ _ _ Hreg) as [[-> ->] | [-> ->]];
        destruct (setting_status_unconfigured w (calls s) _ Hfalsy) as [Hs Hp].
      * split; [| exact Hp]. cbn. rewrite Hs, Hfalsy. reflexivity.
      * split; [| exact Hp]. cbn.
        rewrite (proj1 (setting_status_unconfigured w _ _ Hfalsy)), Hfalsy.
        reflexivity.
  - intros name setting Hreg.
    assert (Hknown : existsb (String.eqb name) ["kokkoro"; "chatterbox"] = true
                     /\ getattr_endpoint settings (name ++ "_endpoint") = setting).
    { destruct (endpoint_setting_cases _ _ _ Hreg) as [[-> ->] | [-> ->]];
        split; reflexivity. }
    destruct Hknown as [Hin Hget].
    unfold single_model_health_check. rewrite Hin, Hget. cbn [negb].
    destruct (configured_endpoint setting) as [endpoint |] eqn:Hc.
    + destruct (configured_endpoint_inv _ _ Hc) as (_ & _ & Htruthy).
      unfold bind at 1. rewrite check_model_health_run.
      unfold bind, now_isoformat, ret.
      eexists. eexists. eexists. exists true.
      split; [reflexivity |]. split; [reflexivity |]. split; [reflexivity |].
      split; [symmetry; exact Htruthy |]. split; [reflexivity |].
      intros Hfalsy. rewrite Hfalsy in Htruthy. discriminate.
    + pose proof (configured_endpoint_falsy _ Hc) as Hfalsy.
      unfold bind, now_isoformat, ret.
      eexists. eexists. exists false. exists false.
      split; [reflexivity |]. split; [reflexivity |]. split; [reflexivity |].
      split; [symmetry; exact Hfalsy |]. split; [discriminate |].
      intros _. split; reflexivity.
  - eexists. eexists. split; [apply get_models_status_run |]. split; [| split].
    + rewrite issue_all_calls, configured_endpoints_probes. reflexivity.
    + intros name Hin.
      destruct Hin as [H | [H | []]]; injection H as Hname Hstatus;
        subst name; apply setting_status_configured in Hstatus.
      * destruct (kokkoro_endpoint settings) as [endpoint |] eqn:Hk;
          [| discriminate Hstatus].
        exists endpoint. rewrite endpoint_setting_spec, Hk. split; [reflexivity |].
        intros ->. discriminate Hstatus.
      * destruct (chatterbox_endpoint settings) as [endpoint |] eqn:Hc;
          [| discriminate Hstatus].
        exists endpoint. rewrite endpoint_setting_spec, Hc. split; [reflexivity |].
        intros ->. discriminate Hstatus.
    + intros name setting Hreg Hfalsy.
      destruct (endpoint_setting_cases _ _ _ Hreg) as [[-> ->] | [-> ->]]; cbn;
        rewrite (proj1 (setting_status_unconfigured w _ _ Hfalsy)); reflexivity.
Qed.

(** C8, on settings where only chatterbox is configured: kokkoro is recorded
    unhealthy and unconfigured and only chatterbox is probed. *)
Lemma health_records_respect_configuration_witness :
  (exists r s',
     models_health_check fallback_world chatterbox_only_settings fresh_state =
       (inr r, s')
     /\ calls s' = [probe_call "http://chatterbox:8002"]
     /\ dict_get (detailed_models r) "kokkoro" =
          Some {| healthy := false; endpoint := None; configured := false |})
  /\
  (exists resp,
     single_model_health_check fallback_world chatterbox_only_settings "kokkoro"
       fresh_state = (inr resp, fresh_state)
     /\ dict_get (body resp) "healthy" = Some (PyBool false)
     /\ dict_get (body resp) "configured" = Some (PyBool false)).
Proof.
  pose proof (health_records_respect_configuration fallback_world
                chatterbox_only_settings fresh_state) as (Hall & Hone & _).
  split.
  - destruct Hall as (r & s' & Hrun & Hcalls & _ & Hunconfigured).
    exists r, s'. split; [exact Hrun |]. split; [exact Hcalls |].
    apply (Hunconfigured "kokkoro" None); reflexivity.
  - destruct (Hone "kokkoro" None eq_refl)
      as (resp & s' & is_healthy & is_configured & Hrun & Hh & Hc & Hcfg & _ & Hun).
    destruct (Hun eq_refl) as [-> ->]. cbn in Hcfg. subst is_configured.
    exists resp. split; [exact Hrun |]. split; assumption.
Defined.

(** C9 as stated fails: with both backends configured and each probe taking
    three time units, one aggregation run takes six: more than the slowest
    single probe. The second probe is issued only once the first has
    answered. *)
Lemma probes_take_the_sum :
  awaited (snd (get_models_status slow_probe_world development_settings fresh_state))
    - awaited fresh_state = 6
  /\ slowest_latency slow_probe_world (calls fresh_state)
       (map probe_call (configured_endpoints development_settings)) = 3
  /\ ~ (awaited (snd (get_models_status slow_probe_world development_settings
                        fresh_state))
        - awaited fresh_state
        <= slowest_latency slow_probe_world (calls fresh_state)
             (map probe_call (configured_endpoints development_settings))).
Proof.
  split; [reflexivity |]. split; [reflexivity |].
  cbn. lia.
Qed.

(** C9, amended. Within one aggregation run the probes of the configured
    backends run one after another, kokkoro's first: each is issued after
    the reply to the one before it, and the time the run spends waiting is
    the sum of the probe latencies, which is at least the latency of the
    slowest probe. *)
Theorem probes_run_in_sequence (w : World) (settings : Settings) (s : State) :
  calls (snd (get_models_status w settings s)) =
    (calls s ++ map probe_call (configured_endpoints settings))%list
  /\ awaited (snd (get_models_status w settings s)) =
       awaited s
       + sequential_latency w (calls s) (map probe_call (configured_endpoints settings))
  /\ slowest_latency w (calls s) (map probe_call (configured_endpoints settings))
     <= sequential_latency w (calls s) (map probe_call (configured_endpoints settings))
  /\ (forall e1 e2,
        configured_endpoint (kokkoro_endpoint settings) = Some e1 ->
        configured_endpoint (chatterbox_endpoint settings) = Some e2 ->
        awaited (snd (get_models_status w settings s)) =
          awaited s
          + latency w (calls s) (probe_call e1)
          + latency w (calls s ++ [probe_call e1])%list (probe_call e2)).
Proof.
  rewrite get_models_status_run. cbn [snd].
  split; [apply issue_all_calls |]. split; [apply issue_all_awaited |].
  split; [apply slowest_le_sequential |].
  intros e1 e2 H1 H2. rewrite issue_all_awaited, configured_endpoints_probes.
  unfold setting_probes. rewrite H1, H2. cbn [app sequential_latency]. lia.
Qed.

(** C9, amended, on two configured backends whose probes take three time
    units each. *)
Lemma probes_run_in_sequence_witness :
  awaited (snd (get_models_status slow_probe_world development_settings fresh_state)) =
    awaited fresh_state
    + latency slow_probe_world (calls fresh_state) (probe_call "http://kokkoro:8001")
    + latency slow_probe_world
        (calls fresh_state ++ [probe_call "http://kokkoro:8001"])%list
        (probe_call "http://chatterbox:8002").
Proof.
  apply (proj2 (proj2 (proj2 (probes_run_in_sequence slow_probe_world
           development_settings fresh_state)))
           "http://kokkoro:8001" "http://chatterbox:8002").
  - reflexivity.
  - reflexivity.
Defined.

(** * Further properties of the gateway *)

(** ** The dispatcher, beyond the claims *)

(** X1. A backend status other than 200 and 422 is passed through: the
    dispatcher raises an HTTPException with that very status, whose message
    is the body of the response, or "HTTP <status>" when the body is empty. *)
Theorem backend_status_passes_through
    (TTSResponse_init : pyval -> LibExc + TTSResponse) (py_repr : pyval -> string)
    (w : World) (settings : Settings) (model_name : string)
    (request : TTSRequest) (s : State)
    (endpoint : string) (response : Response) :
  endpoint_setting settings model_name = Some (Some endpoint) ->
  endpoint <> EmptyString ->
  generate_reply w endpoint model_name request s = inr response ->
  status_code response <> 200%Z ->
  status_code response <> 422%Z ->
  generate_tts TTSResponse_init py_repr w settings model_name request s =
    (inl (HTTPException (status_code response)
            ("Model endpoint error: "
             ++ (if String.eqb (text response) EmptyString
                 then "HTTP " ++ str_int (status_code response)
                 else text response))),
     issue w (generate_call endpoint model_name request) s).
Proof.
  intros Hreg Hne Hreply H200 H422.
  rewrite (dispatch_configured _ _ _ _ _ _ _ Hreg Hne). unfold try_except.
  rewrite (dispatch_response _ _ _ _ _ _ _ _ _ Hreg Hne Hreply).
  apply Z.eqb_neq in H200. apply Z.eqb_neq in H422.
  rewrite H200, H422. reflexivity.
Qed.

Lemma backend_status_passes_through_witness :
  generate_tts TTSResponse_typed repr_unused (world_of_post (inr overloaded_response))
    development_settings "kokkoro" hello_request fresh_state =
    (inl (HTTPException 503 "Model endpoint error: HTTP 503"),
     issue (world_of_post (inr overloaded_response))
       (generate_call "http://kokkoro:8001" "kokkoro" hello_request) fresh_state).
Proof.
  apply (backend_status_passes_through TTSResponse_typed repr_unused
           (world_of_post (inr overloaded_response)) development_settings
           "kokkoro" hello_request fresh_state "http://kokkoro:8001"
           overloaded_response).
  - reflexivity.
  - discriminate.
  - reflexivity.
  - discriminate.
  - discriminate.
Defined.

(** X2. The dispatcher returns a response only on one path: the model is
    registered, its endpoint is configured, the backend answered the one
    forwarded call with status 200, the body parsed, and the constructor
    built the returned object from it. *)
Theorem dispatch_success_inversion
    (TTSResponse_init : pyval -> LibExc + TTSResponse) (py_repr : pyval -> string)
    (w : World) (settings : Settings) (model_name : string)
    (request : TTSRequest) (s s' : State) (result : TTSResponse) :
  generate_tts TTSResponse_init py_repr w settings model_name request s =
    (inr result, s') ->
  exists endpoint response response_data,
    endpoint_setting settings model_name = Some (Some endpoint)
    /\ endpoint <> EmptyString
    /\ generate_reply w endpoint model_name request s = inr response
    /\ status_code response = 200%Z
    /\ json response = inr response_data
    /\ TTSResponse_init response_data = inr result
    /\ s' = issue w (generate_call endpoint model_name request) s.
Proof.
  unfold generate_tts, endpoint_setting.
  destruct (dict_get MODEL_ENDPOINTS model_name) as [env_var |]; [| discriminate].
  destruct (configured_endpoint _) as [endpoint |] eqn:Hc; [| discriminate].
  destruct (configured_endpoint_inv _ _ Hc) as (Hset & Hne & _).
  unfold try_except, forward_and_classify, bind.
  rewrite forward_request_reply.
  destruct (generate_reply w endpoint model_name request s)
    as [[m | m | m r | m] | response] eqn:Hreply; try discriminate.
  destruct (status_code response =? 200)%Z eqn:H200.
  - unfold lib. destruct (json response) as [e | d] eqn:Hjson; [discriminate |].
    destruct (TTSResponse_init d) as [e | r] eqn:Hinit; [discriminate |].
    intros H. inversion H. subst.
    exists endpoint, response, d. rewrite Hset.
    repeat split; try assumption. apply Z.eqb_eq. exact H200.
  - destruct (status_code response =? 422)%Z; [| discriminate].
    unfold lib. destruct (json response) as [e | d]; [discriminate |].
    destruct (py_get d "detail" (PyStr "Validation error")); discriminate.
Qed.

Lemma dispatch_success_inversion_witness :
  exists endpoint response response_data,
    endpoint_setting development_settings "kokkoro" = Some (Some endpoint)
    /\ endpoint <> EmptyString
    /\ generate_reply (world_of_post (inr ok_response)) endpoint "kokkoro"
         hello_request fresh_state = inr response
    /\ status_code response = 200%Z
    /\ json response = inr response_data
    /\ TTSResponse_typed response_data = inr example_response
    /\ issue (world_of_post (inr ok_response))
         (generate_call "http://kokkoro:8001" "kokkoro" hello_request) fresh_state =
       issue (world_of_post (inr ok_response))
         (generate_call endpoint "kokkoro" hello_request) fresh_state.
Proof.
  apply (dispatch_success_inversion TTSResponse_typed repr_unused
           (world_of_post (inr ok_response)) development_settings "kokkoro"
           hello_request fresh_state).
  reflexivity.
Defined.



Lemma dispatch_forwards_at_most_once_state
    (TTSResponse_init : pyval -> LibExc + TTSResponse) (py_repr : pyval -> string)
    (w : World) (settings : Settings) (model_name : string)
    (request : TTSRequest) (s : State) :
  snd (generate_tts TTSResponse_init py_repr w settings model_name request s) =
    match endpoint_setting settings model_name with
    | Some setting =>
        match configured_endpoint setting with
        | Some endpoint =>
            issue w (POST (endpoint ++ "/generate")
                       (prepare_request_data request model_name) 60%float) s
        | None => s
        end
    | None => s
    end.
Proof.
  destruct (endpoint_setting settings model_name) as [setting |] eqn:Hreg.
  - destruct (configured_endpoint setting) as [endpoint |] eqn:Hc.
    + destruct (configured_endpoint_inv _ _ Hc) as (-> & Hne & _).
      apply (dispatch_state _ _ _ _ _ _ _ _ Hreg Hne).
    + pose proof (configured_endpoint_falsy _ Hc) as Hfalsy.
      destruct (dispatch_unconfigured TTSResponse_init py_repr w settings
                  model_name request setting s Hreg Hfalsy) as (env & _ & ->).
      reflexivity.
  - unfold endpoint_setting in Hreg. unfold generate_tts.
    destruct (dict_get MODEL_ENDPOINTS model_name); [discriminate | reflexivity].
Qed.

(** X4. One dispatch makes at most one call to a backend, and never
    retries: no call at all when the model is unknown or not configured, and
    otherwise exactly one POST to `<endpoint>/generate` with the 60 second
    timeout, whatever the backend answers. *)
Theorem dispatch_forwards_at_most_once
    (TTSResponse_init : pyval -> LibExc + TTSResponse) (py_repr : pyval -> string)
    (w : World) (settings : Settings) (model_name : string)
    (request : TTSRequest) (s : State) :
  snd (generate_tts TTSResponse_init py_repr w settings model_name request s) =
    match endpoint_setting settings model_name with
    | Some setting =>
        match configured_endpoint setting with
        | Some endpoint =>
            issue w (POST (endpoint ++ "/generate")
                       (prepare_request_data request model_name) 60%float) s
        | None => s
        end
    | None => s
    end.
Proof. apply dispatch_forwards_at_most_once_state. Qed.

Lemma dict_get_set_same {V : Type} (d : dict V) (k : string) (v : V) :
  dict_get (dict_set d k v) k = Some v.
Proof.
  induction d as [| [k' v'] d IH]; cbn [dict_set dict_get].
  - rewrite String.eqb_refl. reflexivity.
  - destruct (String.eqb k' k) eqn:E; cbn [dict_get]; rewrite E;
      [reflexivity | exact IH].
Qed.

Lemma dict_get_set_other {V : Type} (d : dict V) (k k' : string) (v : V) :
  k' <> k -> dict_get (dict_set d k v) k' = dict_get d k'.
Proof.
  intros Hne. induction d as [| [k0 v0] d IH]; cbn [dict_set dict_get].
  - destruct (String.eqb_spec k k'); [congruence | reflexivity].
  - destruct (String.eqb_spec k0 k) as [-> |]; cbn [dict_get].
    + destruct (String.eqb_spec k k'); [congruence | reflexivity].
    + destruct (String.eqb k0 k'); [reflexivity | exact IH].
Qed.

(** X5. The payload forwarded to a backend is the request's own fields,
    each under its name and unchanged, with one more key, `model`, holding
    the model name of the path. *)
Theorem forwarded_payload_is_request_plus_model
    (request : TTSRequest) (model_name : string) :
  exists items,
    prepare_request_data request model_name = PyDict items
    /\ dict_get items "model" = Some (PyStr model_name)
    /\ (forall k, k <> "model" ->
          dict_get items k = dict_get (TTSRequest_dict request) k)
    /\ dict_keys items = (dict_keys (TTSRequest_dict request) ++ ["model"])%list
    /\ dict_get items "text" = Some (PyStr (req_text request)).
Proof.
  exists (dict_set (TTSRequest_dict request) "model" (PyStr model_name)).
  split; [reflexivity |]. split; [apply dict_get_set_same |].
  split; [intros k Hk; apply dict_get_set_other; exact Hk |].
  split; reflexivity.
Qed.

(** ** The negotiator, beyond the claims *)

(** X6. Before any call the negotiator refuses the same requests as the
    dispatcher, with the same statuses: 400 for a name outside the
    registered set and 503 for a registered model without a configured
    endpoint; in both cases nothing is sent to any backend. *)
Theorem stream_refuses_like_dispatch
    (TTSResponse_init : pyval -> LibExc + TTSResponse) (py_repr : pyval -> string)
    (w : World) (settings : Settings) (model_name : string)
    (request : TTSRequest) (s : State) :
  (model_name <> "kokkoro" -> model_name <> "chatterbox" ->
   generate_tts_stream TTSResponse_init py_repr w settings model_name request s =
     (inl (HTTPException 400 ("Unknown model: " ++ model_name)), s)
   /\ exists detail,
        generate_tts TTSResponse_init py_repr w settings model_name request s =
          (inl (HTTPException 400 detail), s))
  /\
  (forall setting,
     endpoint_setting settings model_name = Some setting ->
     truthy setting = false ->
     generate_tts_stream TTSResponse_init py_repr w settings model_name request s =
       (inl (HTTPException 503 ("Model " ++ model_name ++ " is not configured")), s)
     /\ exists detail,
          generate_tts TTSResponse_init py_repr w settings model_name request s =
            (inl (HTTPException 503 detail), s)).
Proof.
  split.
  - intros Hk Hc. split.
    + unfold generate_tts_stream.
      rewrite (MODEL_ENDPOINTS_unknown _ Hk Hc). reflexivity.
    + eexists. apply dispatch_unknown; assumption.
  - intros setting Hreg Hfalsy. split.
    + destruct (endpoint_setting_env _ _ _ Hreg) as (env_var & Henv & Hget).
      unfold generate_tts_stream. rewrite Henv, Hget.
      rewrite (configured_endpoint_none _ Hfalsy). reflexivity.
    + destruct (dispatch_unconfigured TTSResponse_init py_repr w settings
                  model_name request setting s Hreg Hfalsy) as (env_var & _ & Hrun).
      eexists. exact Hrun.
Qed.

(** X7. The fallback is reserved for a 404. When the streaming attempt ends
    in any other way the negotiator issues no second call: the stream
    attempt is the only call of the run and the dispatcher's outcome is never
    returned. In particular a transport failure of the attempt (a timeout, a
    refused connection) is not classified as the dispatcher would: the
    library's exception leaves the negotiator as it is. *)
Theorem stream_falls_back_only_on_404
    (TTSResponse_init : pyval -> LibExc + TTSResponse) (py_repr : pyval -> string)
    (w : World) (settings : Settings) (model_name : string)
    (request : TTSRequest) (s : State) (endpoint : string) :
  endpoint_setting settings model_name = Some (Some endpoint) ->
  endpoint <> EmptyString ->
  stream_not_found (stream_reply w endpoint model_name request s) = false ->
  snd (generate_tts_stream TTSResponse_init py_repr w settings model_name request s) =
    issue w (stream_call endpoint model_name request) s
  /\ (forall r,
        fst (generate_tts_stream TTSResponse_init py_repr w settings model_name
               request s) <> inr (Dispatched r))
  /\ (forall message,
        stream_reply w endpoint model_name request s = inl (TimeoutException message) ->
        fst (generate_tts_stream TTSResponse_init py_repr w settings model_name
               request s) = inl (Lib (TimeoutException message)))
  /\ (forall message,
        stream_reply w endpoint model_name request s = inl (RequestError message) ->
        fst (generate_tts_stream TTSResponse_init py_repr w settings model_name
               request s) = inl (Lib (RequestError message))).
Proof.
  intros Hreg Hne H404.
  destruct (endpoint_setting_env _ _ _ Hreg) as (env_var & Henv & Hget).
  unfold generate_tts_stream. rewrite Henv, Hget.
  rewrite (configured_endpoint_some _ Hne).
  unfold stream_not_found, stream_reply in *.
  unfold try_except, bind, await_stream, stream_call, raise_for_status.
  destruct (client_stream w (calls s) _ _ _) as [[m | m | m response | m] | response].
  - repeat split; try discriminate. intros m' H. inversion H. reflexivity.
  - repeat split; try discriminate. intros m' H. inversion H. reflexivity.
  - cbv beta iota delta [raise]. rewrite H404.
    destruct (stream_text response); repeat split; discriminate.
  - repeat split; discriminate.
  - rewrite H404.
    destruct (andb _ _).
    + repeat split; discriminate.
    + cbv beta iota delta [raise]. rewrite H404.
      destruct (stream_text response); repeat split; discriminate.
Qed.

Lemma stream_falls_back_only_on_404_witness :
  snd (generate_tts_stream TTSResponse_typed repr_unused
         stream_timeout_world
         development_settings "kokkoro" hello_request fresh_state) =
    issue stream_timeout_world
      (stream_call "http://kokkoro:8001" "kokkoro" hello_request) fresh_state
  /\ fst (generate_tts_stream TTSResponse_typed repr_unused
            stream_timeout_world
            development_settings "kokkoro" hello_request fresh_state) =
       inl (Lib (TimeoutException "timed out")).
Proof.
  pose proof (stream_falls_back_only_on_404 TTSResponse_typed repr_unused
                stream_timeout_world
                development_settings "kokkoro" hello_request fresh_state
                "http://kokkoro:8001" eq_refl ltac:(discriminate) eq_refl)
    as (Hstate & _ & Htimeout & _).
  split.
  - exact Hstate.
  - apply (Htimeout "timed out"). reflexivity.
Defined.

(** ** The health endpoints, beyond the claims *)

Lemma get_system_stats_run (w : World) (s : State) :
  exists stats, get_system_stats w s = (inr stats, s)
    /\ (forall e, psutil_percent w (calls s) = inl e ->
          stats = {| stat_memory_usage := None; stat_cpu_usage := None |})
    /\ (forall m c, psutil_percent w (calls s) = inr (m, c) ->
          stats = {| stat_memory_usage := Some m; stat_cpu_usage := Some c |}).
Proof.
  unfold get_system_stats, try_except, bind, read_psutil, ret.
  destruct (psutil_percent w (calls s)) as [e | [m c]]; eexists;
    (split; [reflexivity |]); split; intros; try discriminate; try reflexivity.
  inversion H. reflexivity.
Qed.

Lemma bind_run {E A B : Type} (m : Comp E A) (k : A -> Comp E B) (s : State) :
  bind m k s =
    match m s with
    | (inr a, s') => k a s'
    | (inl e, s') => (inl e, s')
    end.
Proof. reflexivity. Qed.

Lemma ret_run {E A : Type} (a : A) (s : State) : ret (E := E) a s = (inr a, s).
Proof. reflexivity. Qed.

Lemma startup_probe_run (w : World) (endpoint : string) (s : State) :
  try_except (E' := exn)
    (response <- await_get w (endpoint ++ "/health") startup_timeout ;;
     if (status_code response =? 200)%Z then ret tt else ret tt)%comp
    (fun _ : LibExc => ret tt) s =
    (inr tt, issue w (startup_probe endpoint) s).
Proof.
  unfold try_except, bind, await_get, startup_probe, ret.
  destruct (client_get w (calls s) _ _) as [e | response]; [reflexivity |].
  destruct (status_code response =? 200)%Z; reflexivity.
Qed.

Lemma validate_model_endpoints_run (w : World) (http_client : bool)
    (settings : Settings) (s : State) :
  validate_model_endpoints w http_client settings s =
    (inr tt,
     if http_client
     then issue_all w (map startup_probe (configured_endpoints settings)) s
     else s).
Proof.
  unfold validate_model_endpoints. destruct http_client; [| reflexivity].
  cbn [negb]. unfold MODEL_ENDPOINTS, for_each, configured_endpoints.
  cbn [flat_map].
  change (getattr_endpoint settings (lower "KOKKORO_ENDPOINT"))
    with (kokkoro_endpoint settings).
  change (getattr_endpoint settings (lower "CHATTERBOX_ENDPOINT"))
    with (chatterbox_endpoint settings).
  destruct (configured_endpoint (kokkoro_endpoint settings)) as [e1 |];
    destruct (configured_endpoint (chatterbox_endpoint settings)) as [e2 |];
    cbv beta iota;
    repeat (first [rewrite bind_run | rewrite startup_probe_run | rewrite ret_run];
            cbv beta iota);
    reflexivity.
Qed.

(** X14. The startup check never raises, whatever the backends do, so it
    cannot keep the gateway from starting: it sends one GET with a 10 second
    timeout to `<endpoint>/health` of each configured model, in registry
    order, skips the models without an endpoint, and does nothing at all when
    the HTTP client is missing. *)
Theorem startup_check_never_raises (w : World) (http_client : bool)
    (settings : Settings) (s : State) :
  exists s',
    validate_model_endpoints w http_client settings s = (inr tt, s')
    /\ calls s' =
         (calls s ++ if http_client
                     then map (fun endpoint => GET (endpoint ++ "/health") 10%float)
                            (configured_endpoints settings)
                     else [])%list
    /\ (http_client = false -> s' = s)
    /\ List.length (calls s') <= List.length (calls s) + 2.
Proof.
  rewrite validate_model_endpoints_run. eexists. split; [reflexivity |].
  destruct http_client.
  - rewrite issue_all_calls. split; [reflexivity |]. split; [discriminate |].
    rewrite length_app, length_map. unfold configured_endpoints. cbn [flat_map].
    destruct (configured_endpoint (kokkoro_endpoint settings));
      destruct (configured_endpoint (chatterbox_endpoint settings)); cbn; lia.
  - split; [symmetry; apply app_nil_r |]. split; [reflexivity |]. lia.
Qed.

(** X8. Only `GET /health/` and `GET /health/quick` count themselves, each
    by exactly one whatever its outcome; the detailed view, the per-model
    query, the aggregation itself and the startup check leave the request
    counter as it is. *)
Theorem request_counter_accounting (w : World) (settings : Settings) (s : State) :
  request_counter (snd (health_check w settings s)) = (request_counter s + 1)%Z
  /\ request_counter (snd (quick_health_check w s)) = (request_counter s + 1)%Z
  /\ request_counter (snd (models_health_check w settings s)) = request_counter s
  /\ (forall model_name,
        request_counter (snd (single_model_health_check w settings model_name s)) =
          request_counter s)
  /\ request_counter (snd (get_models_status w settings s)) = request_counter s
  /\ (forall http_client,
        request_counter (snd (validate_model_endpoints w http_client settings s)) =
          request_counter s).
Proof.
  split; [apply health_endpoints_count |].
  split; [apply health_endpoints_count; exact settings |].
  split.
  { destruct (models_health_check_run w settings s) as (r & -> & _).
    apply issue_all_request_counter. }
  split.
  { intros model_name. unfold single_model_health_check.
    destruct (negb _); [reflexivity |].
    destruct (configured_endpoint _) as [endpoint |]; [| reflexivity].
    unfold bind at 1. rewrite check_model_health_run. reflexivity. }
  split.
  { rewrite get_models_status_run. apply issue_all_request_counter. }
  intros http_client. rewrite validate_model_endpoints_run.
  destruct http_client; [apply issue_all_request_counter | reflexivity].
Qed.

(** X9. `GET /health/` answers whatever the backends and psutil do: it
    fails only when a field of the response breaks its declared bounds. With
    a counter that is not negative, an uptime that is not negative and psutil
    readings within 0..100 (or psutil failing), it returns a response that
    lists both registered models and reports the incremented count. *)
Theorem health_check_always_answers (w : World) (settings : Settings) (s : State) :
  (0 <= request_counter s)%Z ->
  PrimFloat.leb 0
    (PrimFloat.sub
       (time_time w (calls s ++ map probe_call (configured_endpoints settings))%list)
       (start_time w)) = true ->
  match psutil_percent w (calls s) with
  | inr (memory, cpu) =>
      andb (opt_float_in 0 100 (Some memory)) (opt_float_in 0 100 (Some cpu))
  | inl _ => true
  end = true ->
  exists h s',
    health_check w settings s = (inr h, s')
    /\ dict_keys (models h) = ["kokkoro"; "chatterbox"]
    /\ request_count h = Some (request_counter s + 1)%Z
    /\ calls s' = (calls s ++ map probe_call (configured_endpoints settings))%list.
Proof.
  intros Hcount Huptime Hpsutil.
  unfold health_check. rewrite bind_run. unfold increment_request_count.
  cbv beta iota. rewrite bind_run.
  match goal with
  | |- context [get_system_stats w ?s1] =>
      destruct (get_system_stats_run w s1) as (stats & Hstats & Hfail & Hok);
      rewrite Hstats
  end.
  cbv beta iota. rewrite bind_run, get_models_status_run. cbv beta iota.
  unfold now_isoformat, get_uptime, read_request_counter.
  repeat (rewrite bind_run; cbv beta iota).
  unfold HealthResponse_init.
  cbn [uptime request_count memory_usage cpu_usage].
  rewrite issue_all_calls, issue_all_request_counter. cbn [calls request_counter].
  rewrite Huptime.
  assert (Hc : (0 <=? request_counter s + 1)%Z = true) by (apply Z.leb_le; lia).
  rewrite Hc.
  assert (Hrange : andb (opt_float_in 0 100 (stat_memory_usage stats))
                     (opt_float_in 0 100 (stat_cpu_usage stats)) = true).
  { cbn [calls] in Hfail, Hok.
    destruct (psutil_percent w (calls s)) as [e | [m c]].
    - rewrite (Hfail e eq_refl). reflexivity.
    - rewrite (Hok m c eq_refl). exact Hpsutil. }
  rewrite Hrange. cbn [andb]. unfold ret.
  eexists. eexists. split; [reflexivity |].
  cbn [models request_count]. rewrite issue_all_calls. cbn [calls].
  repeat split.
Qed.

Lemma health_check_always_answers_witness :
  exists h s',
    health_check fallback_world chatterbox_only_settings fresh_state = (inr h, s')
    /\ dict_keys (models h) = ["kokkoro"; "chatterbox"]
    /\ request_count h = Some (request_counter fresh_state + 1)%Z
    /\ calls s' =
         (calls fresh_state
          ++ map probe_call (configured_endpoints chatterbox_only_settings))%list.
Proof.
  apply (health_check_always_answers fallback_world chatterbox_only_settings
           fresh_state).
  - cbn. lia.
  - reflexivity.
  - reflexivity.
Defined.

(** X10. The per-model query answers 404, with nothing sent, for a name
    that is neither kokkoro nor chatterbox. For a registered model it always
    answers, with status 200 exactly when the body says healthy and 503
    otherwise, after one probe when the model is configured and none when it
    is not. *)
Theorem single_model_status_codes (w : World) (settings : Settings)
    (model_name : string) (s : State) :
  (model_name <> "kokkoro" -> model_name <> "chatterbox" ->
   single_model_health_check w settings model_name s =
     (inl (HTTPException 404 ("Model '" ++ model_name ++ "' not found")), s))
  /\
  (forall setting,
     endpoint_setting settings model_name = Some setting ->
     exists resp,
       single_model_health_check w settings model_name s =
         (inr resp, issue_all w (setting_probes setting) s)
       /\ dict_get (body resp) "model" = Some (PyStr model_name)
       /\ dict_get (body resp) "healthy" =
            Some (PyBool (setting_status w (calls s) setting))
       /\ response_status resp =
            (if setting_status w (calls s) setting then 200 else 503)%Z).
Proof.
  split.
  - intros Hk Hc. unfold single_model_health_check. cbn [existsb].
    destruct (String.eqb_spec model_name "kokkoro"); [contradiction |].
    destruct (String.eqb_spec model_name "chatterbox"); [contradiction |].
    reflexivity.
  - intros setting Hreg.
    assert (Hknown : existsb (String.eqb model_name) ["kokkoro"; "chatterbox"] = true
                     /\ getattr_endpoint settings (model_name ++ "_endpoint") = setting).
    { destruct (endpoint_setting_cases _ _ _ Hreg) as [[-> ->] | [-> ->]];
        split; reflexivity. }
    destruct Hknown as [Hin Hget].
    unfold single_model_health_check, setting_status, setting_probes.
    rewrite Hin, Hget. cbn [negb].
    destruct (configured_endpoint setting) as [endpoint |].
    + rewrite bind_run, check_model_health_run. cbv beta iota.
      unfold now_isoformat. rewrite bind_run. cbv beta iota.
      eexists. split; [reflexivity |]. cbn [body response_status].
      unfold probe_result.
      destruct (client_get w (calls s) _ _) as [e | response];
        [| destruct (status_code response =? 200)%Z]; repeat split.
    + unfold now_isoformat. rewrite bind_run. cbv beta iota.
      eexists. split; [reflexivity |]. repeat split.
Qed.

Lemma detail_models_two (settings : Settings) (b1 b2 : bool) :
  detail_models settings [("kokkoro", b1); ("chatterbox", b2)] =
    [ ("kokkoro",
       {| healthy := b1;
          endpoint := kokkoro_endpoint settings;
          configured := truthy (kokkoro_endpoint settings) |});
      ("chatterbox",
       {| healthy := b2;
          endpoint := chatterbox_endpoint settings;
          configured := truthy (chatterbox_endpoint settings) |}) ].
Proof. reflexivity. Qed.

(** X11. In the detailed view the two totals count what the table shows:
    total_healthy is the number of entries marked healthy, total_configured
    the number marked configured, and always
    0 <= total_healthy <= total_configured <= 2. *)
Theorem detailed_totals_are_consistent (w : World) (settings : Settings) (s : State) :
  exists r s',
    models_health_check w settings s = (inr r, s')
    /\ total_healthy r =
         Z.of_nat (List.length (filter healthy (dict_values (detailed_models r))))
    /\ total_configured r =
         Z.of_nat (List.length (filter configured (dict_values (detailed_models r))))
    /\ (0 <= total_healthy r <= total_configured r)%Z
    /\ (total_configured r <= 2)%Z
    /\ total_configured r =
         Z.of_nat (List.length (configured_endpoints settings)).
Proof.
  unfold models_health_check. rewrite bind_run, get_models_status_run.
  cbv beta iota. unfold now_isoformat. rewrite bind_run. cbv beta iota.
  unfold ret. eexists. eexists. split; [reflexivity |].
  cbn [total_healthy total_configured detailed_models].
  rewrite detail_models_two.
  pose proof (setting_status_configured w (calls s) (kokkoro_endpoint settings)) as H1.
  pose proof (setting_status_configured w
                (calls s ++ setting_probes (kokkoro_endpoint settings))%list
                (chatterbox_endpoint settings)) as H2.
  unfold configured_endpoints, configured_endpoint. cbn [flat_map].
  destruct (setting_status w (calls s) (kokkoro_endpoint settings));
    destruct (setting_status w _ (chatterbox_endpoint settings));
    destruct (kokkoro_endpoint settings) as [e1 |];
    destruct (chatterbox_endpoint settings) as [e2 |];
    unfold truthy in *;
    try destruct (String.eqb e1 EmptyString);
    try destruct (String.eqb e2 EmptyString);
    try (specialize (H1 eq_refl); discriminate H1);
    try (specialize (H2 eq_refl); discriminate H2);
    cbn; repeat split; lia.
Qed.

Lemma setting_status_steady (w : World) (h h' : list Call) (setting : option string) :
  get_ignores_history w -> setting_status w h setting = setting_status w h' setting.
Proof.
  intros Hsteady. unfold setting_status, probe_result.
  destruct (configured_endpoint setting) as [endpoint |]; [| reflexivity].
  rewrite (Hsteady h h'). reflexivity.
Qed.

(** X12. An aggregation run always reports the same two keys, kokkoro and
    then chatterbox; and against backends whose probe answers do not change,
    repeating the run gives the same table and the same overall status,
    whatever happened in between. *)
Theorem aggregation_is_repeatable (w : World) (settings : Settings) :
  (forall s, exists models_status,
     fst (get_models_status w settings s) = inr models_status
     /\ dict_keys models_status = ["kokkoro"; "chatterbox"])
  /\
  (get_ignores_history w ->
   forall s1 s2,
     fst (get_models_status w settings s1) = fst (get_models_status w settings s2)
     /\ forall t1 t2,
          fst (get_models_status w settings s1) = inr t1 ->
          fst (get_models_status w settings s2) = inr t2 ->
          overall_status t1 = overall_status t2).
Proof.
  split.
  - intros s. rewrite get_models_status_run. eexists. split; reflexivity.
  - intros Hsteady s1 s2.
    assert (Hsame : fst (get_models_status w settings s1) =
                    fst (get_models_status w settings s2)).
    { rewrite !get_models_status_run. cbn [fst].
      rewrite (setting_status_steady w (calls s1) (calls s2) _ Hsteady).
      rewrite (setting_status_steady w
                 (calls s1 ++ setting_probes (kokkoro_endpoint settings))%list
                 (calls s2 ++ setting_probes (kokkoro_endpoint settings))%list
                 _ Hsteady).
      reflexivity. }
    split; [exact Hsame |].
    intros t1 t2 H1 H2. rewrite Hsame, H2 in H1. inversion H1. reflexivity.
Qed.

Lemma aggregation_is_repeatable_witness :
  fst (get_models_status fallback_world development_settings fresh_state) =
    fst (get_models_status fallback_world development_settings
           (snd (get_models_status fallback_world development_settings fresh_state))).
Proof.
  apply (proj2 (aggregation_is_repeatable fallback_world development_settings)).
  intros h h' url timeout. reflexivity.
Defined.

Lemma list_models_table (settings : Settings) :
  listed_models (list_models settings) =
    [ ("kokkoro",
       {| available := truthy (kokkoro_endpoint settings);
          listed_endpoint :=
            match configured_endpoint (kokkoro_endpoint settings) with
            | Some e => e
            | None => "Not configured"
            end |});
      ("chatterbox",
       {| available := truthy (chatterbox_endpoint settings);
          listed_endpoint :=
            match configured_endpoint (chatterbox_endpoint settings) with
            | Some e => e
            | None => "Not configured"
            end |}) ].
Proof. reflexivity. Qed.

(** X13. The model list and the dispatcher agree. A name that `GET /models`
    does not list is refused with 400; a model listed as unavailable shows
    the endpoint "Not configured" and is refused with 503, nothing being
    sent; a model listed as available is forwarded, by one POST to
    `/generate` under the endpoint the list shows. *)
Theorem listing_agrees_with_dispatch
    (TTSResponse_init : pyval -> LibExc + TTSResponse) (py_repr : pyval -> string)
    (w : World) (settings : Settings) (model_name : string)
    (request : TTSRequest) (s : State) :
  match dict_get (listed_models (list_models settings)) model_name with
  | None =>
      exists detail,
        generate_tts TTSResponse_init py_repr w settings model_name request s =
          (inl (HTTPException 400 detail), s)
  | Some listing =>
      if available listing then
        snd (generate_tts TTSResponse_init py_repr w settings model_name request s) =
          issue w (POST (listed_endpoint listing ++ "/generate")
                     (prepare_request_data request model_name) 60%float) s
      else
        listed_endpoint listing = "Not configured"
        /\ exists detail,
             generate_tts TTSResponse_init py_repr w settings model_name request s =
               (inl (HTTPException 503 detail), s)
  end.
Proof.
  rewrite list_models_table. cbn [dict_get].
  pose proof (dispatch_forwards_at_most_once_state TTSResponse_init py_repr w
                settings model_name request s) as Hstate.
  rewrite endpoint_setting_spec in Hstate.
  pose proof (endpoint_setting_spec settings model_name) as Hspec.
  destruct (String.eqb_spec "kokkoro" model_name) as [Hk | Hk].
  - cbn [available listed_endpoint].
    destruct (truthy (kokkoro_endpoint settings)) eqn:Htruthy.
    + unfold configured_endpoint in *. rewrite Htruthy in *.
      destruct (kokkoro_endpoint settings); [exact Hstate | discriminate Htruthy].
    + rewrite (configured_endpoint_none _ Htruthy). split; [reflexivity |].
      destruct (dispatch_unconfigured TTSResponse_init py_repr w settings
                  model_name request _ s Hspec Htruthy) as (env & _ & Hrun).
      eexists. exact Hrun.
  - destruct (String.eqb_spec "chatterbox" model_name) as [Hc | Hc].
    + cbn [available listed_endpoint].
      destruct (truthy (chatterbox_endpoint settings)) eqn:Htruthy.
      * unfold configured_endpoint in *. rewrite Htruthy in *.
        destruct (chatterbox_endpoint settings); [exact Hstate | discriminate Htruthy].
      * rewrite (configured_endpoint_none _ Htruthy). split; [reflexivity |].
        destruct (dispatch_unconfigured TTSResponse_init py_repr w settings
                    model_name request _ s Hspec Htruthy) as (env & _ & Hrun).
        eexists. exact Hrun.
    + eexists. apply dispatch_unknown; congruence.
Qed.

(** ** The validators of config.py and models.py *)

Lemma prefix_app (p s t : string) :
  String.prefix p s = true -> String.prefix p (s ++ t) = true.
Proof.
  revert s. induction p as [| a p IH]; intros s.
  - intros _. destruct (s ++ t); reflexivity.
  - destruct s as [| b s]; cbn [String.prefix append]; [discriminate |].
    destruct (ascii_dec a b); [apply IH | discriminate].
Qed.

Lemma has_scheme_app (url t : string) :
  has_scheme url = true -> has_scheme (url ++ t) = true.
Proof.
  unfold has_scheme, startswith. rewrite !orb_true_iff.
  intros [H | H]; [left | right]; apply prefix_app; exact H.
Qed.

Lemma validated_configured_has_scheme (setting : option string) (endpoint : string) :
  validate_endpoints setting = inr setting ->
  configured_endpoint setting = Some endpoint ->
  has_scheme endpoint = true.
Proof.
  intros Hvalid Hc.
  destruct (configured_endpoint_inv _ _ Hc) as (-> & _ & Htruthy).
  unfold validate_endpoints in Hvalid. rewrite Htruthy in Hvalid.
  cbn [andb existsb] in Hvalid. unfold has_scheme.
  destruct (startswith endpoint "http://"); [reflexivity |].
  destruct (startswith endpoint "https://"); [reflexivity |].
  discriminate Hvalid.
Qed.

(** X15. The endpoint validator and the gateway compose: with settings
    whose two endpoint fields the validator accepts, every call the
    dispatcher or the aggregator issues goes to a URL that starts with
    `http://` or `https://`. *)
Theorem validated_endpoints_give_http_urls
    (TTSResponse_init : pyval -> LibExc + TTSResponse) (py_repr : pyval -> string)
    (w : World) (settings : Settings) (model_name : string)
    (request : TTSRequest) (s : State) :
  endpoints_validated settings ->
  (forall c,
     In c (skipn (List.length (calls s))
             (calls (snd (generate_tts TTSResponse_init py_repr w settings
                            model_name request s)))) ->
     has_scheme (call_url c) = true)
  /\
  (forall c,
     In c (skipn (List.length (calls s))
             (calls (snd (get_models_status w settings s)))) ->
     has_scheme (call_url c) = true).
Proof.
  intros [Hk Hc]. split.
  - rewrite dispatch_forwards_at_most_once_state.
    destruct (endpoint_setting settings model_name) as [setting |] eqn:Hreg.
    + destruct (configured_endpoint setting) as [endpoint |] eqn:Hconf.
      * cbn [issue calls]. rewrite skipn_app, skipn_all, Nat.sub_diag.
        cbn [skipn app]. intros c [<- | []]. cbn [call_url].
        apply has_scheme_app.
        destruct (endpoint_setting_cases _ _ _ Hreg) as [[_ ->] | [_ ->]];
          [ exact (validated_configured_has_scheme _ _ Hk Hconf)
          | exact (validated_configured_has_scheme _ _ Hc Hconf) ].
      * rewrite skipn_all. intros c [].
    + rewrite skipn_all. intros c [].
  - rewrite get_models_status_run. cbn [snd].
    rewrite issue_all_calls, skipn_app, skipn_all, Nat.sub_diag.
    cbn [skipn app]. rewrite configured_endpoints_probes.
    intros c Hin. apply in_app_or in Hin. unfold setting_probes in Hin.
    destruct Hin as [Hin | Hin].
    + destruct (configured_endpoint (kokkoro_endpoint settings)) as [e |] eqn:Hconf;
        [| destruct Hin].
      destruct Hin as [<- | []]. cbn [call_url probe_call].
      apply has_scheme_app. exact (validated_configured_has_scheme _ _ Hk Hconf).
    + destruct (configured_endpoint (chatterbox_endpoint settings)) as [e |] eqn:Hconf;
        [| destruct Hin].
      destruct Hin as [<- | []]. cbn [call_url probe_call].
      apply has_scheme_app. exact (validated_configured_has_scheme _ _ Hc Hconf).
Qed.

Lemma validated_endpoints_give_http_urls_witness :
  Forall (fun c => has_scheme (call_url c) = true)
    (skipn (List.length (calls fresh_state))
       (calls (snd (generate_tts TTSResponse_typed repr_unused
                      (world_of_post (inr ok_response)) development_settings
                      "kokkoro" hello_request fresh_state)))).
Proof.
  apply Forall_forall.
  apply (validated_endpoints_give_http_urls TTSResponse_typed repr_unused
           (world_of_post (inr ok_response)) development_settings "kokkoro"
           hello_request fresh_state).
  split; reflexivity.
Defined.

Lemma lstrip_empty_iff (s : pystr) : lstrip s = [] <-> blank s = true.
Proof.
  unfold blank. induction s as [| c s IH]; cbn [lstrip forallb]; [tauto |].
  destruct (isspace c); cbn [andb]; [exact IH |].
  split; discriminate.
Qed.

Lemma rstrip_empty_iff (s : pystr) : rstrip s = [] <-> blank s = true.
Proof.
  unfold blank. induction s as [| c s IH]; cbn [rstrip forallb]; [tauto |].
  destruct (rstrip s) as [| c' r].
  - rewrite (proj1 IH eq_refl), andb_true_r.
    destruct (isspace c); split; try reflexivity; discriminate.
  - destruct (forallb isspace s).
    + discriminate (proj2 IH eq_refl).
    + rewrite andb_false_r. split; discriminate.
Qed.

Lemma lstrip_head (s : pystr) :
  lstrip s = [] \/ exists c r, lstrip s = c :: r /\ isspace c = false.
Proof.
  induction s as [| c s IH]; cbn [lstrip]; [left; reflexivity |].
  destruct (isspace c) eqn:E; [exact IH |].
  right. exists c, s. split; [reflexivity | exact E].
Qed.

Lemma rstrip_keeps_head (c : N) (s : pystr) :
  isspace c = false -> exists r, rstrip (c :: s) = c :: r.
Proof.
  intros E. cbn [rstrip]. destruct (rstrip s) as [| c' r].
  - rewrite E. exists []. reflexivity.
  - exists (c' :: r). reflexivity.
Qed.

Lemma rstrip_idempotent (s : pystr) : rstrip (rstrip s) = rstrip s.
Proof.
  induction s as [| c s IH]; [reflexivity |].
  cbn [rstrip]. destruct (rstrip s) as [| c' r] eqn:E.
  - destruct (isspace c) eqn:Ec; [reflexivity |].
    cbn [rstrip]. rewrite Ec. reflexivity.
  - change (rstrip (c :: c' :: r))
      with (match rstrip (c' :: r) with
            | [] => if isspace c then [] else [c]
            | a :: r0 => c :: a :: r0
            end).
    rewrite IH. reflexivity.
Qed.

Lemma blank_lstrip (s : pystr) : blank (lstrip s) = blank s.
Proof.
  unfold blank. induction s as [| c s IH]; [reflexivity |].
  cbn [lstrip]. destruct (isspace c) eqn:E.
  - cbn [forallb]. rewrite E. exact IH.
  - reflexivity.
Qed.

Lemma strip_empty_iff (s : pystr) : strip s = [] <-> blank s = true.
Proof.
  unfold strip. rewrite rstrip_empty_iff, blank_lstrip. tauto.
Qed.

Lemma lstrip_strip (s : pystr) : lstrip (strip s) = strip s.
Proof.
  unfold strip. destruct (lstrip_head s) as [-> | (c & r & -> & E)];
    [reflexivity |].
  destruct (rstrip_keeps_head c r E) as (r' & ->).
  cbn [lstrip]. rewrite E. reflexivity.
Qed.

Lemma strip_idempotent (s : pystr) : strip (strip s) = strip s.
Proof.
  unfold strip at 1. rewrite lstrip_strip. unfold strip.
  apply rstrip_idempotent.
Qed.

(** What `lstrip` removes is a prefix of whitespace. *)
Lemma lstrip_prefix (s : pystr) :
  exists pre, s = (pre ++ lstrip s)%list /\ blank pre = true.
Proof.
  unfold blank. induction s as [| c s (pre & Hs & Hpre)].
  - exists []. split; reflexivity.
  - cbn [lstrip]. destruct (isspace c) eqn:E.
    + exists (c :: pre). cbn [app forallb]. rewrite E, Hpre, <- Hs.
      split; reflexivity.
    + exists []. split; reflexivity.
Qed.

(** What `rstrip` removes is a suffix of whitespace. *)
Lemma rstrip_suffix (s : pystr) :
  exists post, s = (rstrip s ++ post)%list /\ blank post = true.
Proof.
  unfold blank. induction s as [| c s (post & Hs & Hpost)].
  - exists []. split; reflexivity.
  - cbn [rstrip]. destruct (rstrip s) as [| c' r] eqn:E.
    + cbn [app] in Hs. subst s. destruct (isspace c) eqn:Ec.
      * exists (c :: post). cbn [app forallb]. rewrite Ec, Hpost.
        split; reflexivity.
      * exists post. split; [reflexivity | exact Hpost].
    + exists post. split; [| exact Hpost].
      cbn [app]. cbn [app] in Hs. rewrite <- Hs. reflexivity.
Qed.

(** The last character `rstrip` leaves is not whitespace. *)
Lemma rstrip_last (s : pystr) :
  rstrip s <> [] ->
  exists c, hd_error (rev (rstrip s)) = Some c /\ isspace c = false.
Proof.
  induction s as [| c s IH]; [intros H; contradiction H; reflexivity |].
  cbn [rstrip]. destruct (rstrip s) as [| c' r] eqn:E.
  - destruct (isspace c) eqn:Ec; [intros H; contradiction H; reflexivity |].
    intros _. exists c. split; [reflexivity | exact Ec].
  - intros _. destruct IH as (z & Hz & Hspace); [discriminate |].
    exists z. split; [| exact Hspace].
    change (rev (c :: c' :: r)) with (rev (c' :: r) ++ [c])%list.
    destruct (rev (c' :: r)) as [| y l]; [discriminate Hz |].
    exact Hz.
Qed.

Lemma lstrip_length (s : pystr) :
  (List.length (lstrip s) <= List.length s)%nat.
Proof.
  induction s as [| a s IH]; [apply le_n |].
  cbn [lstrip]. destruct (isspace a); [| apply le_n].
  cbn [List.length]. apply le_S. exact IH.
Qed.

Lemma strip_no_space_at_ends (s : pystr) :
  strip s <> [] -> no_space_at_ends (strip s).
Proof.
  intros Hne. split.
  - pose proof (lstrip_strip s) as Hl.
    destruct (strip s) as [| c r] eqn:E; [contradiction Hne; reflexivity |].
    exists c. split; [reflexivity |].
    cbn [lstrip] in Hl. destruct (isspace c) eqn:Ec; [| reflexivity].
    exfalso. pose proof (lstrip_length r) as Hlen.
    rewrite Hl in Hlen. cbn [List.length] in Hlen. lia.
  - unfold strip in *. apply rstrip_last. exact Hne.
Qed.

(** X16. The text validator of TTSRequest works on the characters (code
    points) of the text with Python's notion of whitespace, the no-break
    space and the ideographic space included. It rejects exactly the texts
    made of whitespace only (the empty text among them). A text it accepts
    comes back stripped: the result is the text without a prefix and a suffix
    that are all whitespace, it is not empty, neither its first nor its last
    character is whitespace, and validating it again returns it unchanged. *)
Theorem validate_text_strips (v : pystr) :
  (blank v = true ->
   validate_text v =
     inl (OtherException "Text cannot be empty or whitespace only"))
  /\
  (blank v = false ->
   exists pre t post,
     validate_text v = inr t
     /\ t = strip v
     /\ v = (pre ++ t ++ post)%list
     /\ blank pre = true
     /\ blank post = true
     /\ t <> []
     /\ no_space_at_ends t
     /\ validate_text t = inr t).
Proof.
  unfold validate_text. split.
  - intros Hblank. rewrite (proj2 (strip_empty_iff v) Hblank). reflexivity.
  - intros Hblank.
    assert (Hne : strip v <> []).
    { intros H. apply strip_empty_iff in H. congruence. }
    destruct (lstrip_prefix v) as (pre & Hv & Hpre).
    destruct (rstrip_suffix (lstrip v)) as (post & Hl & Hpost).
    exists pre, (strip v), post.
    rewrite strip_idempotent.
    destruct (strip v) as [| c r] eqn:E; [contradiction Hne; reflexivity |].
    split; [reflexivity |]. split; [reflexivity |].
    split; [rewrite <- E; unfold strip; rewrite <- Hl; exact Hv |].
    split; [exact Hpre |]. split; [exact Hpost |].
    split; [discriminate |].
    split; [rewrite <- E; apply strip_no_space_at_ends; rewrite E; discriminate |].
    reflexivity.
Qed.

(** X16 on three texts: spaces only; the ideographic space and a tab only;
    and "Hello, world" between a no-break space and an ideographic space. *)
Lemma validate_text_strips_witness :
  validate_text (code_points "   ") =
    inl (OtherException "Text cannot be empty or whitespace only")
  /\ validate_text [12288; 9]%N =
       inl (OtherException "Text cannot be empty or whitespace only")
  /\ exists pre t post,
       validate_text (160%N :: code_points " Hello, world" ++ [12288%N])%list = inr t
       /\ t = strip (160%N :: code_points " Hello, world" ++ [12288%N])%list
       /\ (160%N :: code_points " Hello, world" ++ [12288%N])%list =
            (pre ++ t ++ post)%list
       /\ blank pre = true
       /\ blank post = true
       /\ t <> []
       /\ no_space_at_ends t
       /\ validate_text t = inr t.
Proof.
  split; [| split].
  - apply (proj1 (validate_text_strips (code_points "   "))). reflexivity.
  - apply (proj1 (validate_text_strips [12288; 9]%N)). reflexivity.
  - apply (proj2 (validate_text_strips
                    (160%N :: code_points " Hello, world" ++ [12288%N])%list)).
    reflexivity.
Defined.

(** The code points [isspace] holds of, in order: those for which
    `chr(c).isspace()` is true in CPython. Above U+3000 there is none. *)
Example isspace_table :
  filter isspace (map N.of_nat (seq 0 (N.to_nat 12289))) =
    [9; 10; 11; 12; 13; 28; 29; 30; 31; 32; 133; 160; 5760;
     8192; 8193; 8194; 8195; 8196; 8197; 8198; 8199; 8200; 8201; 8202;
     8232; 8233; 8239; 8287; 12288]%N.
Proof. vm_compute. reflexivity. Qed.

Lemma isspace_bounded (c : N) : (12288 < c)%N -> isspace c = false.
Proof.
  intros H. unfold isspace.
  assert (Hle : forall k, (k <= 12288)%N -> (c <=? k)%N = false)
    by (intros k Hk; apply N.leb_gt; lia).
  assert (Heq : forall k, (k <= 12288)%N -> (c =? k)%N = false)
    by (intros k Hk; apply N.eqb_neq; lia).
  rewrite !Hle, !Heq by lia. rewrite !andb_false_r. reflexivity.
Qed.

(** Unicode whitespace is stripped like ASCII whitespace; the zero-width
    space U+200B is no whitespace and stays. *)
Example validate_text_example :
  validate_text (160%N :: code_points " Hello, world" ++ [12288%N])%list =
    inr (code_points "Hello, world")
  /\ validate_text (8203%N :: code_points "Hello ")%list =
       inr (8203%N :: code_points "Hello")%list.
Proof. split; reflexivity. Qed.

(** ** The statistics view *)

Lemma max_with_one_not_zero (x y : float) :
  max_with_one x = inr y -> PrimFloat.eqb y 0 = false.
Proof.
  unfold max_with_one. destruct (PrimFloat.ltb x 1) eqn:Hlt; [discriminate |].
  intros H. inversion H. subst y. clear H. revert Hlt.
  rewrite FloatAxioms.ltb_spec, FloatAxioms.eqb_spec.
  replace (Prim2SF 1) with (S754_finite false 4503599627370496 (-52)) by reflexivity.
  replace (Prim2SF 0) with (S754_zero false) by reflexivity.
  destruct (Prim2SF x) as [sg | sg | | sg m e]; intros H.
  - destruct sg; discriminate H.
  - destruct sg; reflexivity.
  - reflexivity.
  - destruct sg; reflexivity.
Qed.

(** X17. The statistics view never divides by zero. The divisor of
    requests_per_second is `max(uptime, 1)`, which is the int 1 or a float
    that is not zero, so whenever the request count converts to a float the
    view returns its record, with the count it read and without touching the
    state. *)
Theorem service_stats_never_divides_by_zero
    (float_of_int int_over_one : Z -> LibExc + float) (w : World) (s : State) :
  (exists x, float_of_int (request_counter s) = inr x) ->
  (exists x, int_over_one (request_counter s) = inr x) ->
  exists stats,
    service_stats float_of_int int_over_one w s = (inr stats, s)
    /\ total_requests stats = request_counter s
    /\ uptime_seconds stats = PrimFloat.sub (time_time w (calls s)) (start_time w).
Proof.
  intros (x & Hx) (x1 & Hx1).
  unfold service_stats. rewrite bind_run.
  destruct (get_system_stats_run w s) as (stats & -> & _). cbv beta iota.
  unfold get_uptime, read_request_counter, now_isoformat.
  repeat (rewrite bind_run; cbv beta iota).
  unfold truediv.
  destruct (max_with_one _) as [one | y] eqn:Hmax.
  - unfold lib. rewrite Hx1. cbv beta iota.
    repeat (rewrite bind_run; cbv beta iota).
    eexists. split; [reflexivity |]. split; reflexivity.
  - rewrite bind_run. unfold lib. rewrite Hx. cbv beta iota.
    rewrite (max_with_one_not_zero _ _ Hmax). unfold ret.
    eexists. split; [reflexivity |]. split; reflexivity.
Qed.

Lemma service_stats_never_divides_by_zero_witness :
  exists stats,
    service_stats count_to_float count_to_float fallback_world fresh_state =
      (inr stats, fresh_state)
    /\ total_requests stats = request_counter fresh_state
    /\ uptime_seconds stats =
         PrimFloat.sub (time_time fallback_world (calls fresh_state))
           (start_time fallback_world).
Proof.
  apply (service_stats_never_divides_by_zero count_to_float count_to_float
           fallback_world fresh_state).
  - eexists. reflexivity.
  - eexists. reflexivity.
Defined.
